(** * GroundStation backend: schema library and HTTP gateway

    A shallow embedding of [server/models.py] (the pydantic schema
    library) and of [server/app.py] (logging bootstrap, cross-origin
    policy, exception handlers and the enabled routes), followed by the
    properties proved about them. *)

From Stdlib Require Import ZArith QArith List Bool Lia.
From stdpp Require Import base option strings list gmap.

Local Open Scope string_scope.
Local Open Scope list_scope.
Local Open Scope Z_scope.

(* ===================================================================== *)
(** * Python values                                                      *)
(* ===================================================================== *)

(** A Python [float] is an IEEE-754 double: a finite number, one of the two
    infinities, or NaN. Every finite double is a rational and the schema
    only ever compares a value with an integer literal, which is exact, so
    the finite case carries the rational it denotes. A Python [int] is
    unbounded: [Z]. *)
Inductive pyfloat : Type :=
  | Finite (q : Q)
  | PosInf
  | NegInf
  | NaN.

Definition Qlt_bool (x y : Q) : bool := negb (Qle_bool y x).

(** The four comparisons [v > b], [v >= b], [v < b], [v <= b] of a value
    with an integer literal [b]. *)
Class PyNumber (A : Type) : Type := {
  num_gt : A -> Z -> bool;
  num_ge : A -> Z -> bool;
  num_lt : A -> Z -> bool;
  num_le : A -> Z -> bool
}.

#[export] Instance int_PyNumber : PyNumber Z := {|
  num_gt v b := b <? v;
  num_ge v b := b <=? v;
  num_lt v b := v <? b;
  num_le v b := v <=? b
|}.

(** IEEE comparisons: every comparison with NaN is false; [+inf] is above
    and [-inf] below every integer. *)
#[export] Instance float_PyNumber : PyNumber pyfloat := {|
  num_gt v b :=
    match v with
    | Finite q => Qlt_bool (inject_Z b) q
    | PosInf => true
    | NegInf | NaN => false
    end;
  num_ge v b :=
    match v with
    | Finite q => Qle_bool (inject_Z b) q
    | PosInf => true
    | NegInf | NaN => false
    end;
  num_lt v b :=
    match v with
    | Finite q => Qlt_bool q (inject_Z b)
    | NegInf => true
    | PosInf | NaN => false
    end;
  num_le v b :=
    match v with
    | Finite q => Qle_bool q (inject_Z b)
    | NegInf => true
    | PosInf | NaN => false
    end
|}.

(** [float(z)], the float an integer converts to. The conversion is exact
    up to 2^53 in magnitude, which covers every integer that a float field
    with an upper bound accepts; the rounding of larger integers is not
    modelled. *)
Definition float_of_Z (z : Z) : pyfloat := Finite (inject_Z z).

(** The plain data the Controller returns and the gateway sends as JSON:
    [None], booleans, numbers, strings, lists and dicts with string keys. *)
#[local] Set Warnings "-register-all".
Inductive pyval : Type :=
  | PNone
  | PBool (b : bool)
  | PInt (z : Z)
  | PFloat (f : pyfloat)
  | PStr (s : string)
  | PList (vs : list pyval)
  | PDict (d : gmap string pyval).
#[local] Set Warnings "register-all".

(* ===================================================================== *)
(** * pydantic: numeric field constraints and validation errors          *)
(* ===================================================================== *)

(** The numeric keyword arguments of [Field(..., gt=, ge=, lt=, le=)];
    an absent keyword is [None]. *)
Module Field.
Record t : Type := mk {
  gt : option Z;
  ge : option Z;
  lt : option Z;
  le : option Z
}.
(** [Field(...)] with no numeric keyword. *)
Definition required : t := mk None None None None.
End Field.

(** The error a violated bound raises, and the errors of a field that is
    absent or is not of its declared type. *)
Inductive ErrorKind : Type :=
  | NumberNotGtError (limit_value : Z)
  | NumberNotGeError (limit_value : Z)
  | NumberNotLtError (limit_value : Z)
  | NumberNotLeError (limit_value : Z)
  | MissingError
  | IntegerError
  | FloatError
  | DictError
  | ListError.

(** Where in the input an error was found: field names and list indices. *)
Inductive LocItem : Type :=
  | Key (name : string)
  | Idx (i : nat).

#[export] Instance LocItem_eq_dec : EqDecision LocItem.
Proof. solve_decision. Defined.

Definition Loc : Type := list LocItem.
Definition ValidationError : Type := (Loc * ErrorKind)%type.

(** One bound: [if bound is not None and not v <cmp> bound: raise]. *)
Definition bound_error {A : Type} (cmp : A -> Z -> bool)
    (error : Z -> ErrorKind) (bound : option Z) (v : A) : option ErrorKind :=
  match bound with
  | Some b => if cmp v b then None else Some (error b)
  | None => None
  end.

(** The bounds are checked in the order gt, ge, lt, le and the first one
    that does not hold is raised. *)
Definition number_size_validator {A : Type} `{PyNumber A}
    (f : Field.t) (v : A) : option ErrorKind :=
  match bound_error num_gt NumberNotGtError (Field.gt f) v with
  | Some e => Some e
  | None =>
  match bound_error num_ge NumberNotGeError (Field.ge f) v with
  | Some e => Some e
  | None =>
  match bound_error num_lt NumberNotLtError (Field.lt f) v with
  | Some e => Some e
  | None => bound_error num_le NumberNotLeError (Field.le f) v
  end end end.

(** Errors of one numeric field, located at the field's name. *)
Definition field_errors {A : Type} `{PyNumber A}
    (name : string) (f : Field.t) (v : A) : list ValidationError :=
  match number_size_validator f v with
  | Some k => [([Key name], k)]
  | None => []
  end.

(** Errors of a nested model are located under the field that holds it. *)
Definition under (item : LocItem) (errs : list ValidationError)
    : list ValidationError :=
  map (fun e => (item :: fst e, snd e)) errs.

Definition nested_errors {A : Type} (validate : A -> list ValidationError)
    (name : string) (v : A) : list ValidationError :=
  under (Key name) (validate v).

(** Errors of a [List[Model]] field: each element is validated, and its
    errors are located under the field's name and the element's index. *)
Definition list_errors {A : Type} (validate : A -> list ValidationError)
    (name : string) (vs : list A) : list ValidationError :=
  under (Key name)
    (concat (imap (fun i v => under (Idx i) (validate v)) vs)).

(** Constructing a model either returns the instance or raises a
    [ValidationError] carrying every error found. *)
Definition construct {A : Type} (validate : A -> list ValidationError)
    (v : A) : list ValidationError + A :=
  match validate v with
  | [] => inr v
  | errs => inl errs
  end.

Definition succeeds {E A : Type} (r : E + A) : Prop :=
  match r with inr _ => True | inl _ => False end.

Definition raises {A : Type} (r : list ValidationError + A)
    (e : ValidationError) : Prop :=
  match r with inl errs => In e errs | inr _ => False end.

(* ===================================================================== *)
(** * pydantic: reading a model from plain data                          *)
(* ===================================================================== *)

(** [Model.parse_obj(value)], which is also how a response model checks
    the value a route returns, reads every declared field at its declared
    type ([decode] below) and then checks the declared bounds ([validate]).
    Values are taken at their declared types, an [int] also where a [float]
    is declared; pydantic's other conversions (a numeric string, a bool, a
    float where an [int] is declared) are not modelled and are type errors
    here. Keys that the model does not declare are ignored. *)
Definition Decoded (A : Type) : Type := (list ValidationError + A)%type.

Definition ap {A B : Type} (f : Decoded (A -> B)) (x : Decoded A)
    : Decoded B :=
  match f, x with
  | inr g, inr a => inr (g a)
  | inl e1, inl e2 => inl (e1 ++ e2)
  | inl e1, inr _ => inl e1
  | inr _, inl e2 => inl e2
  end.

Infix "<*>" := ap (at level 61, left associativity).

Definition located {A : Type} (item : LocItem) (d : Decoded A) : Decoded A :=
  match d with
  | inl errs => inl (under item errs)
  | inr a => inr a
  end.

Definition int_validator (v : pyval) : Decoded Z :=
  match v with
  | PInt z => inr z
  | _ => inl [([], IntegerError)]
  end.

Definition float_validator (v : pyval) : Decoded pyfloat :=
  match v with
  | PFloat f => inr f
  | PInt z => inr (float_of_Z z)
  | _ => inl [([], FloatError)]
  end.

Definition dict_validator (v : pyval) : Decoded (gmap string pyval) :=
  match v with
  | PDict d => inr d
  | _ => inl [([], DictError)]
  end.

Definition list_validator {A : Type} (item : pyval -> Decoded A) (v : pyval)
    : Decoded (list A) :=
  match v with
  | PList vs =>
      foldr (fun d acc => inr cons <*> d <*> acc) (inr [])
        (imap (fun i x => located (Idx i) (item x)) vs)
  | _ => inl [([], ListError)]
  end.

(** A required field ([Field(...)]): absent is an error. *)
Definition required {A : Type} (d : gmap string pyval) (name : string)
    (type_ : pyval -> Decoded A) : Decoded A :=
  match d !! name with
  | Some v => located (Key name) (type_ v)
  | None => inl [([Key name], MissingError)]
  end.

Definition model {A : Type} (fields : gmap string pyval -> Decoded A)
    (v : pyval) : Decoded A :=
  match dict_validator v with
  | inr d => fields d
  | inl errs => inl errs
  end.

Definition parse {A : Type} (decode : pyval -> Decoded A)
    (validate : A -> list ValidationError) (v : pyval) : Decoded A :=
  match decode v with
  | inr a => construct validate a
  | inl errs => inl errs
  end.

(* ===================================================================== *)
(** * models.py                                                          *)
(* ===================================================================== *)

(** Every model is a record of its fields at their declared types, the
    [Field] declaration of each constrained field, [validate], the errors
    that the bounds give, and [init], the constructor from values of the
    declared types; [decode] and [parse_obj] read the model from plain
    data and [dict] writes it back. A subclass repeats the fields of its
    base class, in declaration order. *)

Module ExceptionHandler.
Record t : Type := mk {
  title : string;
  message : string;
  exception : string;
  traceback : list string
}.
Definition dict (d : t) : pyval :=
  PDict (list_to_map [
    ("title", PStr (title d));
    ("message", PStr (message d));
    ("exception", PStr (exception d));
    ("traceback", PList (map PStr (traceback d)))]).
End ExceptionHandler.

Module LatLonDict.
Record t : Type := mk {
  latitude : pyfloat;
  longitude : pyfloat
}.
Definition latitude_field : Field.t :=
  {| Field.gt := Some (-180); Field.ge := None;
     Field.lt := None; Field.le := Some 180 |}.
Definition longitude_field : Field.t :=
  {| Field.gt := Some (-180); Field.ge := None;
     Field.lt := None; Field.le := Some 180 |}.
Definition validate (d : t) : list ValidationError :=
  field_errors "latitude" latitude_field (latitude d)
  ++ field_errors "longitude" longitude_field (longitude d).
Definition init (latitude longitude : pyfloat) :=
  construct validate (mk latitude longitude).
Definition decode : pyval -> Decoded t :=
  model (fun o =>
    inr mk
    <*> required o "latitude" float_validator
    <*> required o "longitude" float_validator).
Definition parse_obj : pyval -> Decoded t := parse decode validate.
Definition dict (d : t) : pyval :=
  PDict (list_to_map [
    ("latitude", PFloat (latitude d));
    ("longitude", PFloat (longitude d))]).
End LatLonDict.

Module LatLonAltDict.
Record t : Type := mk {
  latitude : pyfloat;
  longitude : pyfloat;
  altitude : Z
}.
Definition altitude_field : Field.t := Field.required.
Definition base (d : t) : LatLonDict.t :=
  LatLonDict.mk (latitude d) (longitude d).
Definition validate (d : t) : list ValidationError :=
  LatLonDict.validate (base d)
  ++ field_errors "altitude" altitude_field (altitude d).
Definition init (latitude longitude : pyfloat) (altitude : Z) :=
  construct validate (mk latitude longitude altitude).
Definition decode : pyval -> Decoded t :=
  model (fun o =>
    inr mk
    <*> required o "latitude" float_validator
    <*> required o "longitude" float_validator
    <*> required o "altitude" int_validator).
Definition parse_obj : pyval -> Decoded t := parse decode validate.
Definition dict (d : t) : pyval :=
  PDict (list_to_map [
    ("latitude", PFloat (latitude d));
    ("longitude", PFloat (longitude d));
    ("altitude", PInt (altitude d))]).
End LatLonAltDict.

Module TelemetryDict.
Record t : Type := mk {
  latitude : pyfloat;
  longitude : pyfloat;
  altitude : Z;
  heading : Z
}.
Definition heading_field : Field.t :=
  {| Field.gt := None; Field.ge := Some 0;
     Field.lt := Some 360; Field.le := None |}.
Definition base (d : t) : LatLonAltDict.t :=
  LatLonAltDict.mk (latitude d) (longitude d) (altitude d).
Definition validate (d : t) : list ValidationError :=
  LatLonAltDict.validate (base d)
  ++ field_errors "heading" heading_field (heading d).
Definition init (latitude longitude : pyfloat) (altitude heading : Z) :=
  construct validate (mk latitude longitude altitude heading).
Definition decode : pyval -> Decoded t :=
  model (fun o =>
    inr mk
    <*> required o "latitude" float_validator
    <*> required o "longitude" float_validator
    <*> required o "altitude" int_validator
    <*> required o "heading" int_validator).
Definition parse_obj : pyval -> Decoded t := parse decode validate.
Definition dict (d : t) : pyval :=
  PDict (list_to_map [
    ("latitude", PFloat (latitude d));
    ("longitude", PFloat (longitude d));
    ("altitude", PInt (altitude d));
    ("heading", PInt (heading d))]).
End TelemetryDict.

Module ObstacleDict.
Record t : Type := mk {
  latitude : pyfloat;
  longitude : pyfloat;
  radius : Z;
  height : Z
}.
Definition radius_field : Field.t :=
  {| Field.gt := None; Field.ge := Some 0;
     Field.lt := None; Field.le := None |}.
Definition height_field : Field.t :=
  {| Field.gt := None; Field.ge := Some 0;
     Field.lt := None; Field.le := None |}.
Definition base (d : t) : LatLonDict.t :=
  LatLonDict.mk (latitude d) (longitude d).
Definition validate (d : t) : list ValidationError :=
  LatLonDict.validate (base d)
  ++ field_errors "radius" radius_field (radius d)
  ++ field_errors "height" height_field (height d).
Definition init (latitude longitude : pyfloat) (radius height : Z) :=
  construct validate (mk latitude longitude radius height).
Definition decode : pyval -> Decoded t :=
  model (fun o =>
    inr mk
    <*> required o "latitude" float_validator
    <*> required o "longitude" float_validator
    <*> required o "radius" int_validator
    <*> required o "height" int_validator).
Definition parse_obj : pyval -> Decoded t := parse decode validate.
Definition dict (d : t) : pyval :=
  PDict (list_to_map [
    ("latitude", PFloat (latitude d));
    ("longitude", PFloat (longitude d));
    ("radius", PInt (radius d));
    ("height", PInt (height d))]).
End ObstacleDict.

Module FlyZoneDict.
Record t : Type := mk {
  altitudeMin : Z;
  altitudeMax : Z;
  boundaryPoints : list LatLonDict.t
}.
Definition altitudeMin_field : Field.t :=
  {| Field.gt := None; Field.ge := Some 0;
     Field.lt := None; Field.le := None |}.
Definition altitudeMax_field : Field.t :=
  {| Field.gt := None; Field.ge := Some 0;
     Field.lt := None; Field.le := None |}.
Definition validate (d : t) : list ValidationError :=
  field_errors "altitudeMin" altitudeMin_field (altitudeMin d)
  ++ field_errors "altitudeMax" altitudeMax_field (altitudeMax d)
  ++ list_errors LatLonDict.validate "boundaryPoints" (boundaryPoints d).
Definition init (altitudeMin altitudeMax : Z)
    (boundaryPoints : list LatLonDict.t) :=
  construct validate (mk altitudeMin altitudeMax boundaryPoints).
Definition decode : pyval -> Decoded t :=
  model (fun o =>
    inr mk
    <*> required o "altitudeMin" int_validator
    <*> required o "altitudeMax" int_validator
    <*> required o "boundaryPoints" (list_validator LatLonDict.decode)).
Definition parse_obj : pyval -> Decoded t := parse decode validate.
Definition dict (d : t) : pyval :=
  PDict (list_to_map [
    ("altitudeMin", PInt (altitudeMin d));
    ("altitudeMax", PInt (altitudeMax d));
    ("boundaryPoints", PList (map LatLonDict.dict (boundaryPoints d)))]).
End FlyZoneDict.

Module OrientationDict.
Record t : Type := mk {
  yaw : Z;
  roll : Z;
  pitch : Z
}.
Definition yaw_field : Field.t :=
  {| Field.gt := None; Field.ge := Some 0;
     Field.lt := Some 360; Field.le := None |}.
Definition roll_field : Field.t :=
  {| Field.gt := Some (-180); Field.ge := None;
     Field.lt := None; Field.le := Some 180 |}.
Definition pitch_field : Field.t :=
  {| Field.gt := Some (-180); Field.ge := None;
     Field.lt := None; Field.le := Some 180 |}.
Definition validate (d : t) : list ValidationError :=
  field_errors "yaw" yaw_field (yaw d)
  ++ field_errors "roll" roll_field (roll d)
  ++ field_errors "pitch" pitch_field (pitch d).
Definition init (yaw roll pitch : Z) :=
  construct validate (mk yaw roll pitch).
Definition decode : pyval -> Decoded t :=
  model (fun o =>
    inr mk
    <*> required o "yaw" int_validator
    <*> required o "roll" int_validator
    <*> required o "pitch" int_validator).
Definition parse_obj : pyval -> Decoded t := parse decode validate.
Definition dict (d : t) : pyval :=
  PDict (list_to_map [
    ("yaw", PInt (yaw d));
    ("roll", PInt (roll d));
    ("pitch", PInt (pitch d))]).
End OrientationDict.

Module MissionDict.
Record t : Type := mk {
  id : Z;
  lostCommsPos : LatLonDict.t;
  flyZones : list FlyZoneDict.t;
  waypoints : list LatLonAltDict.t;
  searchGridPoints : list LatLonDict.t;
  offAxisOdlcPos : LatLonDict.t;
  emergentLastKnownPos : LatLonDict.t;
  airDropBoundaryPoints : list LatLonDict.t;
  airDropPos : LatLonDict.t;
  ugvDrivePos : LatLonDict.t;
  stationaryObstacles : list ObstacleDict.t;
  mapCenterPos : LatLonDict.t;
  mapHeight : Z
}.
Definition id_field : Field.t := Field.required.
Definition mapHeight_field : Field.t :=
  {| Field.gt := None; Field.ge := Some 0;
     Field.lt := None; Field.le := None |}.
Definition validate (d : t) : list ValidationError :=
  field_errors "id" id_field (id d)
  ++ nested_errors LatLonDict.validate "lostCommsPos" (lostCommsPos d)
  ++ list_errors FlyZoneDict.validate "flyZones" (flyZones d)
  ++ list_errors LatLonAltDict.validate "waypoints" (waypoints d)
  ++ list_errors LatLonDict.validate "searchGridPoints" (searchGridPoints d)
  ++ nested_errors LatLonDict.validate "offAxisOdlcPos" (offAxisOdlcPos d)
  ++ nested_errors LatLonDict.validate "emergentLastKnownPos"
       (emergentLastKnownPos d)
  ++ list_errors LatLonDict.validate "airDropBoundaryPoints"
       (airDropBoundaryPoints d)
  ++ nested_errors LatLonDict.validate "airDropPos" (airDropPos d)
  ++ nested_errors LatLonDict.validate "ugvDrivePos" (ugvDrivePos d)
  ++ list_errors ObstacleDict.validate "stationaryObstacles"
       (stationaryObstacles d)
  ++ nested_errors LatLonDict.validate "mapCenterPos" (mapCenterPos d)
  ++ field_errors "mapHeight" mapHeight_field (mapHeight d).
Definition init (d : t) := construct validate d.
Definition decode : pyval -> Decoded t :=
  model (fun o =>
    inr mk
    <*> required o "id" int_validator
    <*> required o "lostCommsPos" LatLonDict.decode
    <*> required o "flyZones" (list_validator FlyZoneDict.decode)
    <*> required o "waypoints" (list_validator LatLonAltDict.decode)
    <*> required o "searchGridPoints" (list_validator LatLonDict.decode)
    <*> required o "offAxisOdlcPos" LatLonDict.decode
    <*> required o "emergentLastKnownPos" LatLonDict.decode
    <*> required o "airDropBoundaryPoints"
          (list_validator LatLonDict.decode)
    <*> required o "airDropPos" LatLonDict.decode
    <*> required o "ugvDrivePos" LatLonDict.decode
    <*> required o "stationaryObstacles"
          (list_validator ObstacleDict.decode)
    <*> required o "mapCenterPos" LatLonDict.decode
    <*> required o "mapHeight" int_validator).
Definition parse_obj : pyval -> Decoded t := parse decode validate.
Definition dict (d : t) : pyval :=
  PDict (list_to_map [
    ("id", PInt (id d));
    ("lostCommsPos", LatLonDict.dict (lostCommsPos d));
    ("flyZones", PList (map FlyZoneDict.dict (flyZones d)));
    ("waypoints", PList (map LatLonAltDict.dict (waypoints d)));
    ("searchGridPoints",
       PList (map LatLonDict.dict (searchGridPoints d)));
    ("offAxisOdlcPos", LatLonDict.dict (offAxisOdlcPos d));
    ("emergentLastKnownPos", LatLonDict.dict (emergentLastKnownPos d));
    ("airDropBoundaryPoints",
       PList (map LatLonDict.dict (airDropBoundaryPoints d)));
    ("airDropPos", LatLonDict.dict (airDropPos d));
    ("ugvDrivePos", LatLonDict.dict (ugvDrivePos d));
    ("stationaryObstacles",
       PList (map ObstacleDict.dict (stationaryObstacles d)));
    ("mapCenterPos", LatLonDict.dict (mapCenterPos d));
    ("mapHeight", PInt (mapHeight d))]).
End MissionDict.

Module QuickDict.
Record t : Type := mk {
  altitude : pyfloat;
  orientation : OrientationDict.t;
  ground_speed : pyfloat;
  air_speed : pyfloat;
  dist_to_wp : pyfloat;
  voltage : pyfloat;
  throttle : Z;
  lat : pyfloat;
  lon : pyfloat
}.
Definition altitude_field : Field.t :=
  {| Field.gt := None; Field.ge := Some 0;
     Field.lt := None; Field.le := None |}.
Definition ground_speed_field : Field.t :=
  {| Field.gt := None; Field.ge := Some 0;
     Field.lt := None; Field.le := None |}.
Definition air_speed_field : Field.t :=
  {| Field.gt := None; Field.ge := Some 0;
     Field.lt := None; Field.le := None |}.
Definition dist_to_wp_field : Field.t :=
  {| Field.gt := None; Field.ge := Some 0;
     Field.lt := None; Field.le := None |}.
Definition voltage_field : Field.t :=
  {| Field.gt := None; Field.ge := Some 0;
     Field.lt := Some 20; Field.le := None |}.
Definition throttle_field : Field.t :=
  {| Field.gt := None; Field.ge := Some 0;
     Field.lt := None; Field.le := Some 100 |}.
Definition lat_field : Field.t :=
  {| Field.gt := Some (-180); Field.ge := None;
     Field.lt := None; Field.le := Some 180 |}.
Definition lon_field : Field.t :=
  {| Field.gt := Some (-180); Field.ge := None;
     Field.lt := None; Field.le := Some 180 |}.
Definition validate (d : t) : list ValidationError :=
  field_errors "altitude" altitude_field (altitude d)
  ++ nested_errors OrientationDict.validate "orientation" (orientation d)
  ++ field_errors "ground_speed" ground_speed_field (ground_speed d)
  ++ field_errors "air_speed" air_speed_field (air_speed d)
  ++ field_errors "dist_to_wp" dist_to_wp_field (dist_to_wp d)
  ++ field_errors "voltage" voltage_field (voltage d)
  ++ field_errors "throttle" throttle_field (throttle d)
  ++ field_errors "lat" lat_field (lat d)
  ++ field_errors "lon" lon_field (lon d).
Definition init (d : t) := construct validate d.
Definition decode : pyval -> Decoded t :=
  model (fun o =>
    inr mk
    <*> required o "altitude" float_validator
    <*> required o "orientation" OrientationDict.decode
    <*> required o "ground_speed" float_validator
    <*> required o "air_speed" float_validator
    <*> required o "dist_to_wp" float_validator
    <*> required o "voltage" float_validator
    <*> required o "throttle" int_validator
    <*> required o "lat" float_validator
    <*> required o "lon" float_validator).
Definition parse_obj : pyval -> Decoded t := parse decode validate.
Definition dict (d : t) : pyval :=
  PDict (list_to_map [
    ("altitude", PFloat (altitude d));
    ("orientation", OrientationDict.dict (orientation d));
    ("ground_speed", PFloat (ground_speed d));
    ("air_speed", PFloat (air_speed d));
    ("dist_to_wp", PFloat (dist_to_wp d));
    ("voltage", PFloat (voltage d));
    ("throttle", PInt (throttle d));
    ("lat", PFloat (lat d));
    ("lon", PFloat (lon d))]).
End QuickDict.

Module MissionIn.
Inductive t : Type :=
  | mission | waypoints | obstacles | teams
  | search | ugv | odlc | lost_comms.
(** The member's string value ([MissionIn] is a [str] enumeration). *)
Definition value (m : t) : string :=
  match m with
  | mission => "mission"
  | waypoints => "waypoints"
  | obstacles => "obstacles"
  | teams => "teams"
  | search => "search"
  | ugv => "ugv"
  | odlc => "odlc"
  | lost_comms => "lost_comms"
  end.
End MissionIn.

(** The response envelopes: a [result] field holding the payload. *)
Module GeneralOut.
Record t : Type := mk {
  result : gmap string pyval
}.
Definition validate (d : t) : list ValidationError := [].
Definition decode : pyval -> Decoded t :=
  model (fun o => inr mk <*> required o "result" dict_validator).
Definition parse_obj : pyval -> Decoded t := parse decode validate.
Definition dict (d : t) : pyval :=
  PDict (list_to_map [("result", PDict (result d))]).
End GeneralOut.

Module MissionOut.
Record t : Type := mk {
  result : MissionDict.t
}.
Definition validate (d : t) : list ValidationError :=
  nested_errors MissionDict.validate "result" (result d).
Definition decode : pyval -> Decoded t :=
  model (fun o => inr mk <*> required o "result" MissionDict.decode).
Definition parse_obj : pyval -> Decoded t := parse decode validate.
Definition dict (d : t) : pyval :=
  PDict (list_to_map [("result", MissionDict.dict (result d))]).
End MissionOut.

Module TelemetryOut.
Record t : Type := mk {
  result : TelemetryDict.t
}.
Definition validate (d : t) : list ValidationError :=
  nested_errors TelemetryDict.validate "result" (result d).
Definition decode : pyval -> Decoded t :=
  model (fun o => inr mk <*> required o "result" TelemetryDict.decode).
Definition parse_obj : pyval -> Decoded t := parse decode validate.
Definition dict (d : t) : pyval :=
  PDict (list_to_map [("result", TelemetryDict.dict (result d))]).
End TelemetryOut.

Module QuickOut.
Record t : Type := mk {
  result : QuickDict.t
}.
Definition validate (d : t) : list ValidationError :=
  nested_errors QuickDict.validate "result" (result d).
Definition decode : pyval -> Decoded t :=
  model (fun o => inr mk <*> required o "result" QuickDict.decode).
Definition parse_obj : pyval -> Decoded t := parse decode validate.
Definition dict (d : t) : pyval :=
  PDict (list_to_map [("result", QuickDict.dict (result d))]).
End QuickOut.

(* ===================================================================== *)
(** * The process and its effects                                        *)
(* ===================================================================== *)

(** A raised exception, as far as the gateway looks at it: the name of
    its class ([type(e).__name__]), the names of the other classes of its
    method resolution order (the classes it inherits from, nearest first),
    [str(e)], and [traceback.format_tb(e.__traceback__)]; and the
    [status_code] and [detail] attributes, which only the framework's
    [HTTPException] has and only the framework's handler for it reads. The
    classes of [errors.py] are not part of these sources; their places in
    the class hierarchy come with each exception. *)
Record PyException : Type := {
  exc_type : string;
  exc_bases : list string;
  exc_str : string;
  exc_traceback : list string;
  exc_status_code : Z;
  exc_detail : pyval
}.

Definition type_name (e : PyException) : string := exc_type e.
Definition mro (e : PyException) : list string := exc_type e :: exc_bases e.

Module logging.

Definition DEBUG : Z := 10.
Definition INFO : Z := 20.
Definition WARNING : Z := 30.
Definition ERROR : Z := 40.
Definition NOTSET : Z := 0.

(** What a logging call hands to the handlers. *)
Record LogRecord : Type := {
  levelno : Z;
  message : string;
  exc_info : option PyException
}.

(** A written line: a record rendered by a format string. The rendering
    itself (it starts with the time of day) is left symbolic. *)
Record Line : Type := {
  fmt : string;
  record : LogRecord
}.

(** [StreamHandler()] writes to the standard error stream,
    [FileHandler(filename, mode)] to a file. *)
Inductive Target : Type :=
  | StreamHandler
  | FileHandler (filename mode : string).

Record Handler : Type := mkHandler {
  target : Target;
  handler_level : Z;
  formatter : string
}.

Definition new (t : Target) : Handler := mkHandler t NOTSET "%(message)s".
Definition setLevel (lvl : Z) (h : Handler) : Handler :=
  mkHandler (target h) lvl (formatter h).
Definition setFormatter (f : string) (h : Handler) : Handler :=
  mkHandler (target h) (handler_level h) f.

Record Logger : Type := mkLogger {
  name : string;
  level : Z;
  handlers : list Handler
}.

Definition getLogger (n : string) : Logger := mkLogger n NOTSET [].
Definition Logger_setLevel (lvl : Z) (l : Logger) : Logger :=
  mkLogger (name l) lvl (handlers l).
Definition addHandler (h : Handler) (l : Logger) : Logger :=
  mkLogger (name l) (level l) (handlers l ++ [h]).

End logging.

(** What the code of [app.py] writes to: the two standard streams and
    the files of the working directory. *)
Record World : Type := mkWorld {
  stdout : list string;
  stderr : list logging.Line;
  files : gmap string (list logging.Line)
}.

(** Effectful code: a function of the world. *)
Definition IO (A : Type) : Type := World -> A * World.

#[export] Instance IO_ret : MRet IO := fun A (a : A) w => (a, w).
#[export] Instance IO_bind : MBind IO :=
  fun A B (k : A -> IO B) (m : IO A) w => let (a, w') := m w in k a w'.

Definition print (s : string) : IO unit :=
  fun w => (tt, mkWorld (stdout w ++ [s]) (stderr w) (files w)).

(** [open(filename, mode)]: mode ["w"] truncates the file or creates it
    empty; any other mode here (["a"]) keeps what the file holds. *)
Definition open (filename mode : string) : IO unit :=
  fun w =>
    let old := if String.eqb mode "w" then [] else default [] (files w !! filename) in
    (tt, mkWorld (stdout w) (stderr w) (<[filename := old]> (files w))).

Definition emit (h : logging.Handler) (r : logging.LogRecord) : IO unit :=
  fun w =>
    let line := {| logging.fmt := logging.formatter h; logging.record := r |} in
    match logging.target h with
    | logging.StreamHandler =>
        (tt, mkWorld (stdout w) (stderr w ++ [line]) (files w))
    | logging.FileHandler filename _ =>
        (tt, mkWorld (stdout w) (stderr w)
               (<[filename := default [] (files w !! filename) ++ [line]]>
                  (files w)))
    end.

(** A handler writes the records at or above its own level. *)
Definition handle (h : logging.Handler) (r : logging.LogRecord) : IO unit :=
  if logging.handler_level h <=? logging.levelno r then emit h r else mret tt.

Fixpoint callHandlers (hs : list logging.Handler) (r : logging.LogRecord)
    : IO unit :=
  match hs with
  | [] => mret tt
  | h :: hs' => handle h r ;; callHandlers hs' r
  end.

(** [logger.log(level, msg, exc_info=...)]: dropped below the logger's own
    level, otherwise offered to each handler in turn. *)
Definition log (l : logging.Logger) (lvl : Z) (msg : string)
    (exc : option PyException) : IO unit :=
  if logging.level l <=? lvl
  then callHandlers (logging.handlers l)
         {| logging.levelno := lvl; logging.message := msg;
            logging.exc_info := exc |}
  else mret tt.

Definition info (l : logging.Logger) (msg : string) (exc : option PyException)
    : IO unit :=
  log l logging.INFO msg exc.

Definition error (l : logging.Logger) (msg : string) : IO unit :=
  log l logging.ERROR msg None.

(* ===================================================================== *)
(** * app.py                                                             *)
(* ===================================================================== *)

(** ** Logging bootstrap *)

(** The logger has a level of its own, so the level of its parent is never
    consulted; the root logger has no handler in this file, so what the
    logger propagates upwards is written nowhere else. *)
Definition formatter : string := "%(asctime)s [%(levelname)-8s]  %(message)s".

Definition console_handler : logging.Handler :=
  logging.setFormatter formatter
    (logging.setLevel logging.WARNING (logging.new logging.StreamHandler)).

Definition file_handler : logging.Handler :=
  logging.setFormatter formatter
    (logging.setLevel logging.INFO
       (logging.new (logging.FileHandler "log.txt" "w"))).

Definition debug_file_handler : logging.Handler :=
  logging.setFormatter formatter
    (logging.setLevel logging.DEBUG
       (logging.new (logging.FileHandler "debug_log.txt" "w"))).

Definition logger : logging.Logger :=
  logging.addHandler debug_file_handler
    (logging.addHandler file_handler
       (logging.addHandler console_handler
          (logging.Logger_setLevel logging.DEBUG (logging.getLogger "main")))).

(** The effects of lines 40 to 61, in order: each [FileHandler] opens its
    file when it is created, then the two "LOGGING STARTED" lines. *)
Definition logging_setup : IO unit :=
  open "log.txt" "w" ;;
  open "debug_log.txt" "w" ;;
  print "LOGGING STARTED" ;;
  info logger "LOGGING STARTED" None.

(** ** Cross-origin policy *)

(** The arguments of [app.add_middleware(CORSMiddleware, ...)]. *)
Record CORSMiddleware : Type := {
  allow_origins : list string;
  allow_credentials : bool;
  allow_methods : list string;
  allow_headers : list string
}.

Definition origins : list string := ["http://localhost:3000"].

Definition cors : CORSMiddleware := {|
  allow_origins := origins;
  allow_credentials := true;
  allow_methods := ["*"];
  allow_headers := ["*"]
|}.

(** What the middleware makes of its arguments: ["*"] among the origins or
    the headers allows every one of them, ["*"] among the methods stands
    for the standard methods. *)
Definition ALL_METHODS : list string :=
  ["DELETE"; "GET"; "HEAD"; "OPTIONS"; "PATCH"; "POST"; "PUT"].

Definition contains (l : list string) (s : string) : bool :=
  existsb (String.eqb s) l.

Definition is_allowed_origin (c : CORSMiddleware) (origin : string) : bool :=
  contains (allow_origins c) "*" || contains (allow_origins c) origin.

Definition is_allowed_method (c : CORSMiddleware) (method : string) : bool :=
  if contains (allow_methods c) "*"
  then contains ALL_METHODS method
  else contains (allow_methods c) method.

(** Header names are compared in lower case, and four headers are always
    allowed. *)
Definition SAFELISTED_HEADERS : list string :=
  ["Accept"; "Accept-Language"; "Content-Language"; "Content-Type"].

Definition lower_char (c : Ascii.ascii) : Ascii.ascii :=
  let n := Ascii.N_of_ascii c in
  if ((65 <=? n) && (n <=? 90))%N then Ascii.ascii_of_N (n + 32) else c.

Fixpoint lower (s : string) : string :=
  match s with
  | EmptyString => EmptyString
  | String c s' => String (lower_char c) (lower s')
  end.

Definition is_allowed_header (c : CORSMiddleware) (header : string) : bool :=
  contains (allow_headers c) "*"
  || contains (map lower (SAFELISTED_HEADERS ++ allow_headers c))
       (lower header).

(** The answer to a preflight request, which names its origin, the method
    and the headers it asks for: 200 when all of them are allowed, 400
    ("Disallowed CORS ...") otherwise. *)
Definition preflight_status (c : CORSMiddleware) (origin method : string)
    (headers : list string) : Z :=
  if is_allowed_origin c origin && is_allowed_method c method
     && forallb (is_allowed_header c) headers
  then 200 else 400.

(** ** Exception handlers *)

Record Request : Type := {
  method : string;
  path : string
}.

Record JSONResponse : Type := mkJSONResponse {
  status_code : Z;
  content : pyval
}.

Definition envelope (title : string) (e : PyException) : pyval :=
  PDict (list_to_map [
    ("title", PStr title);
    ("message", PStr (exc_str e));
    ("exception", PStr (type_name e));
    ("traceback", PList (map PStr (exc_traceback e)))]).

(** An exception handler takes the request and the exception. *)
Definition ExceptionHandlerFn : Type :=
  Request -> PyException -> IO JSONResponse.

(** ["Traceback of %s : " % name]. *)
Definition traceback_of (name : string) : string :=
  "Traceback of " ++ name ++ " : ".

Definition handle_400 : ExceptionHandlerFn := fun r e =>
  error logger (type_name e) ;;
  info logger (traceback_of (type_name e)) (Some e) ;;
  mret (mkJSONResponse 400 (envelope "Invalid Request" e)).

Definition handle_409 : ExceptionHandlerFn := fun r e =>
  error logger (type_name e) ;;
  info logger (traceback_of (type_name e)) (Some e) ;;
  mret (mkJSONResponse 409 (envelope "Invalid State" e)).

Definition handle_422 : ExceptionHandlerFn := fun r e =>
  error logger (type_name e) ;;
  info logger (traceback_of (type_name e)) (Some e) ;;
  mret (mkJSONResponse 422 (envelope "Request Validation Failed" e)).

Definition handle_503 : ExceptionHandlerFn := fun r e =>
  error logger (type_name e) ;;
  info logger (traceback_of (type_name e)) (Some e) ;;
  mret (mkJSONResponse 503 (envelope "Service Unavailable" e)).

Definition handle_500 : ExceptionHandlerFn := fun r e =>
  error logger (type_name e) ;;
  info logger (traceback_of (type_name e)) (Some e) ;;
  mret (mkJSONResponse 500 (envelope "Server Error" e)).

(** The handlers registered by [@app.exception_handler(cls)], by class. *)
Definition exception_handlers : gmap string ExceptionHandlerFn :=
  <["GeneralError" := handle_500]>
    (<["Exception" := handle_500]>
       (<["ServiceUnavailableError" := handle_503]>
          (<["RequestValidationError" := handle_422]>
             (<["InvalidStateError" := handle_409]>
                (<["InvalidRequestError" := handle_400]> ∅))))).

(** The handler of an exception is the one registered for the first class
    of its method resolution order that has one. *)
Fixpoint lookup_handler (handlers : gmap string ExceptionHandlerFn)
    (classes : list string) : option ExceptionHandlerFn :=
  match classes with
  | [] => None
  | cls :: rest =>
      match handlers !! cls with
      | Some h => Some h
      | None => lookup_handler handlers rest
      end
  end.

(** The response to a raised exception; [None] when no handler is found
    (the exception is not an [Exception]) and it leaves the application. *)
Definition handle_exception (r : Request) (e : PyException)
    : IO (option JSONResponse) :=
  match lookup_handler exception_handlers (mro e) with
  | Some h => resp ← h r e; mret (Some resp)
  | None => mret None
  end.

(** ** The Controller and the routes *)

(** [groundstation.GroundStation] is not part of these sources. All the
    gateway uses of it is [gs.call(name, *args)], which returns plain data
    or raises, and may change the state [S] the Controller keeps. *)
Record GroundStation (S : Type) : Type := {
  call : string -> list pyval -> S -> (PyException + pyval) * S
}.
Arguments call {S} _ _ _ _.

(** What [response_model=Model] does to the value a route returns: the
    value is read as the model and the model is what is sent. *)
Definition response_field {A : Type} (parse_obj : pyval -> Decoded A)
    (dict : A -> pyval) (v : pyval) : Decoded pyval :=
  match parse_obj v with
  | inr m => inr (dict m)
  | inl errs => inl errs
  end.

Section Gateway.

Context {S : Type}.

(** [gs = GroundStation()], the one Controller of the process. *)
Variable gs : GroundStation S.

(** The exception the framework raises when the value a route returned
    does not fit its response model; its text is the framework's. *)
Variable response_validation_error : list ValidationError -> PyException.

Definition Endpoint : Type := S -> (PyException + pyval) * S.

Definition interop_login : Endpoint := call gs "i_login" [].
Definition interop_mission : Endpoint := call gs "i_mission" [].
Definition interop_telemetry : Endpoint := call gs "i_telemetry" [].
Definition quick : Endpoint := call gs "m_quick" [].

(** A route as its decorator declares it. *)
Record Route : Type := {
  route_method : string;
  route_path : string;
  response_model : pyval -> Decoded pyval;
  route_status_code : Z;
  endpoint : Endpoint
}.

Definition interop_login_route : Route := {|
  route_method := "POST";
  route_path := "/interop/login";
  response_model := response_field GeneralOut.parse_obj GeneralOut.dict;
  route_status_code := 201;
  endpoint := interop_login
|}.

Definition interop_mission_route : Route := {|
  route_method := "GET";
  route_path := "/interop/mission";
  response_model := response_field MissionOut.parse_obj MissionOut.dict;
  route_status_code := 200;
  endpoint := interop_mission
|}.

Definition interop_telemetry_route : Route := {|
  route_method := "GET";
  route_path := "/interop/telemetry";
  response_model := response_field TelemetryOut.parse_obj TelemetryOut.dict;
  route_status_code := 200;
  endpoint := interop_telemetry
|}.

Definition quick_route : Route := {|
  route_method := "GET";
  route_path := "/uav/quick";
  response_model := response_field QuickOut.parse_obj QuickOut.dict;
  route_status_code := 200;
  endpoint := quick
|}.

Definition routes : list Route :=
  [interop_login_route; interop_mission_route; interop_telemetry_route;
   quick_route].

(** The process while it serves: what it has written and the state of
    its Controller. *)
Definition Process : Type := (World * S)%type.

(** One request to a route: the endpoint runs; the value it returns goes
    through the response model and is sent with the route's status code;
    an exception, from the endpoint or from the response model, goes to
    the exception handlers of [app.py]. Two steps of the framework are
    left out here and stated where they matter: an [HTTPException] is
    answered by the framework's own handler ([exception_middleware]
    below), and the body is rendered as JSON, which is refused for a body
    that is not [json_compliant]; a returned [None] is not modelled. *)
Definition serve (rt : Route) (r : Request) (p : Process)
    : option JSONResponse * Process :=
  let (w, s) := p in
  let (outcome, s') := endpoint rt s in
  match outcome with
  | inr v =>
      match response_model rt v with
      | inr body => (Some (mkJSONResponse (route_status_code rt) body), (w, s'))
      | inl errs =>
          let (resp, w') :=
            handle_exception r (response_validation_error errs) w in
          (resp, (w', s'))
      end
  | inl e =>
      let (resp, w') := handle_exception r e w in
      (resp, (w', s'))
  end.

Definition matches (r : Request) (rt : Route) : bool :=
  String.eqb (route_method rt) (method r)
  && String.eqb (route_path rt) (path r).

Definition find_route (r : Request) : option Route :=
  List.find (matches r) routes.

(** A request for one of the routes of this file; any other request is
    answered by the framework ([None] here). *)
Definition handle_request (r : Request) (p : Process)
    : option (option JSONResponse * Process) :=
  match find_route r with
  | Some rt => Some (serve rt r p)
  | None => None
  end.

End Gateway.

(** ** What the framework adds around the application *)

(** When the application object is created, before [app.py] registers its
    own handlers, FastAPI installs a handler for its [HTTPException]: it
    answers with the exception's own status code and the body
    [{"detail": detail}], and logs nothing. (It also installs one for
    [RequestValidationError], which [handle_422] replaces.) *)
Definition http_exception_handler : ExceptionHandlerFn := fun r e =>
  mret (mkJSONResponse (exc_status_code e)
          (PDict {[ "detail" := exc_detail e ]})).

(** The handlers of the running application: the framework's and, over
    them, those of [app.py]. *)
Definition all_exception_handlers : gmap string ExceptionHandlerFn :=
  exception_handlers ∪ {[ "HTTPException" := http_exception_handler ]}.

(** The response of the running application to a raised exception. *)
Definition exception_middleware (r : Request) (e : PyException)
    : IO (option JSONResponse) :=
  match lookup_handler all_exception_handlers (mro e) with
  | Some h => resp ← h r e; mret (Some resp)
  | None => mret None
  end.

(** [JSONResponse] renders its content with [allow_nan=False]: a content
    that holds NaN or an infinity anywhere is refused (a [ValueError]);
    every other plain value is rendered. *)
#[local] Set Warnings "-register-all".
Inductive json_compliant : pyval -> Prop :=
  | compliant_None : json_compliant PNone
  | compliant_bool (b : bool) : json_compliant (PBool b)
  | compliant_int (z : Z) : json_compliant (PInt z)
  | compliant_float (q : Q) : json_compliant (PFloat (Finite q))
  | compliant_str (s : string) : json_compliant (PStr s)
  | compliant_list (vs : list pyval) :
      Forall json_compliant vs -> json_compliant (PList vs)
  | compliant_dict (d : gmap string pyval) :
      map_Forall (fun _ => json_compliant) d -> json_compliant (PDict d).
#[local] Set Warnings "register-all".

(* ===================================================================== *)
(** * Vocabulary of the properties                                       *)
(* ===================================================================== *)

(** A float lies in the interval [(lo, hi]], [[lo, hi)] or [[lo, +inf)]
    when it is a finite number there; neither infinity nor NaN lies in an
    interval with a finite end. *)
Definition float_in_oc (lo hi : Z) (v : pyfloat) : Prop :=
  exists q, v = Finite q /\ (inject_Z lo < q)%Q /\ (q <= inject_Z hi)%Q.

Definition float_in_co (lo hi : Z) (v : pyfloat) : Prop :=
  exists q, v = Finite q /\ (inject_Z lo <= q)%Q /\ (q < inject_Z hi)%Q.

(** [v >= lo]: a finite number at or above [lo], or [+inf]. *)
Definition float_at_least (lo : Z) (v : pyfloat) : Prop :=
  match v with
  | Finite q => (inject_Z lo <= q)%Q
  | PosInf => True
  | NegInf | NaN => False
  end.

(** [v > hi]: a finite number above [hi], or [+inf]. *)
Definition float_above (hi : Z) (v : pyfloat) : Prop :=
  match v with
  | Finite q => (inject_Z hi < q)%Q
  | PosInf => True
  | NegInf | NaN => False
  end.

(** The value is numerically equal to the integer [z]. *)
Definition float_is (z : Z) (v : pyfloat) : Prop :=
  exists q, v = Finite q /\ (q == inject_Z z)%Q.

(** The errors reported at a location, whatever their kind. *)
Definition errors_at (l : Loc) (errs : list ValidationError)
    : list ValidationError :=
  filter (fun e => fst e = l) errs.

(** A field is accepted by a construction when no error is located at it. *)
Definition accepted (l : Loc) (errs : list ValidationError) : Prop :=
  errors_at l errs = [].

(** A declared bound holds of a value; an absent bound always does. *)
Definition bound_ok {A : Type} (cmp : A -> Z -> bool) (bound : option Z)
    (v : A) : Prop :=
  match bound with Some b => cmp v b = true | None => True end.

(** [0 <= n]: what [ge=0] asks of an integer field. *)
Definition non_negative (n : Z) : Prop := 0 <= n.

(** The mission with its waypoints replaced. *)
Definition with_waypoints (wps : list LatLonAltDict.t) (d : MissionDict.t)
    : MissionDict.t :=
  MissionDict.mk (MissionDict.id d) (MissionDict.lostCommsPos d)
    (MissionDict.flyZones d) wps (MissionDict.searchGridPoints d)
    (MissionDict.offAxisOdlcPos d) (MissionDict.emergentLastKnownPos d)
    (MissionDict.airDropBoundaryPoints d) (MissionDict.airDropPos d)
    (MissionDict.ugvDrivePos d) (MissionDict.stationaryObstacles d)
    (MissionDict.mapCenterPos d) (MissionDict.mapHeight d).

(** The waypoint with its altitude replaced. *)
Definition with_altitude (alt : Z) (p : LatLonAltDict.t) : LatLonAltDict.t :=
  LatLonAltDict.mk (LatLonAltDict.latitude p) (LatLonAltDict.longitude p) alt.

(** The Controller that also keeps the list of the calls made to it. *)
Definition recording {S : Type} (gs : GroundStation S)
    : GroundStation (S * list (string * list pyval)) :=
  {| call name args st :=
       let (outcome, s') := call gs name args (fst st) in
       (outcome, (s', snd st ++ [(name, args)])) |}.

(** The success envelope [{"result": payload}]. *)
Definition result_envelope (payload : pyval) : pyval :=
  PDict {[ "result" := payload ]}.

(** The titles of the spec's error-translation table, by status code. *)
Definition table_title (status : Z) : string :=
  if status =? 400 then "Invalid Request"
  else if status =? 409 then "Invalid State"
  else if status =? 422 then "Request validation failed"
  else if status =? 503 then "Service Unavailable"
  else "General / unclassified".

(** The titles the handlers of [app.py] write, by status code. *)
Definition handler_title (status : Z) : string :=
  if status =? 400 then "Invalid Request"
  else if status =? 409 then "Invalid State"
  else if status =? 422 then "Request Validation Failed"
  else if status =? 503 then "Service Unavailable"
  else "Server Error".

(** The envelope of an error response, as the schema library declares it. *)
Definition error_envelope (title : string) (e : PyException) : pyval :=
  ExceptionHandler.dict
    {| ExceptionHandler.title := title;
       ExceptionHandler.message := exc_str e;
       ExceptionHandler.exception := type_name e;
       ExceptionHandler.traceback := exc_traceback e |}.


(** The status code of the response to an exception, if there is one. *)
Definition status_of (outcome : option JSONResponse * World) : option Z :=
  status_code <$> fst outcome.

(** The classes of [errors.py] and of the framework that have a handler
    other than the catch-all one. *)
Definition specific_classes : list string :=
  ["InvalidRequestError"; "InvalidStateError"; "RequestValidationError";
   "ServiceUnavailableError"].

(** The entry of a JSON object under a name, and the names it has. *)
Definition field_of (name : string) (v : pyval) : option pyval :=
  match v with
  | PDict d => d !! name
  | _ => None
  end.


(** An exception of class [GeneralError], derived from [Exception]. *)
Definition a_general_error : PyException := {|
  exc_type := "GeneralError";
  exc_bases := ["Exception"; "BaseException"; "object"];
  exc_str := "Attempted to distort spacetime continuum.";
  exc_traceback := ["  File groundstation.py, line 1, in call"];
  exc_status_code := 500;
  exc_detail := PNone
|}.

Definition a_request : Request :=
  {| method := "POST"; path := "/interop/login" |}.

Definition empty_world : World := mkWorld [] [] ∅.

Definition login_request : Request :=
  {| method := "POST"; path := "/interop/login" |}.

Definition telemetry_request : Request :=
  {| method := "GET"; path := "/interop/telemetry" |}.

(** A Controller without state that answers every command with the same
    value. *)
Definition constant_controller (v : pyval) : GroundStation unit :=
  {| call _ _ s := (inr v, s) |}.

(** A telemetry reading as the Controller may return it. *)
Definition a_telemetry : pyval :=
  result_envelope (PDict (list_to_map [
    ("latitude", PFloat (Finite (38908233 # 1000000)));
    ("longitude", PFloat (Finite (-77180142 # 1000000)));
    ("altitude", PInt 150);
    ("heading", PInt 270)])).

(** The exception pydantic raises for a value that does not fit a model,
    with its classes; the text depends on the errors and is not rendered
    here. *)
Definition a_validation_error (errs : list ValidationError) : PyException := {|
  exc_type := "ValidationError";
  exc_bases := ["Representation"; "ValueError"; "Exception"; "BaseException";
                "object"];
  exc_str := "validation error for GeneralOut";
  exc_traceback := [];
  exc_status_code := 500;
  exc_detail := PNone
|}.

(** The line a handler of [app.py] writes for a record. *)
Definition line (lvl : Z) (msg : string) : logging.Line :=
  {| logging.fmt := formatter;
     logging.record :=
       {| logging.levelno := lvl; logging.message := msg;
          logging.exc_info := None |} |}.

(** What a file holds; a file that does not exist holds nothing. *)
Definition contents (filename : string) (w : World) : list logging.Line :=
  default [] (files w !! filename).

(** The lines written when [cond] holds. *)
Definition when_ (cond : bool) (l : logging.Line) : list logging.Line :=
  if cond then [l] else [].

(** The example values of [models.py]: a position and a vehicle status. *)
Definition example_latitude : pyfloat := Finite (38908233 # 1000000).
Definition example_longitude : pyfloat := Finite (-77180142 # 1000000).

Definition example_quick : QuickDict.t := {|
  QuickDict.altitude := float_of_Z 150;
  QuickDict.orientation := OrientationDict.mk 270 24 3;
  QuickDict.ground_speed := Finite (56829 # 1000);
  QuickDict.air_speed := Finite (54735 # 1000);
  QuickDict.dist_to_wp := Finite (152876 # 1000);
  QuickDict.voltage := Finite (14358 # 1000);
  QuickDict.throttle := 65;
  QuickDict.lat := example_latitude;
  QuickDict.lon := example_longitude
|}.

(** The status with its voltage, its throttle or its altitude replaced. *)
Definition with_voltage (v : pyfloat) (d : QuickDict.t) : QuickDict.t :=
  QuickDict.mk (QuickDict.altitude d) (QuickDict.orientation d)
    (QuickDict.ground_speed d) (QuickDict.air_speed d)
    (QuickDict.dist_to_wp d) v (QuickDict.throttle d)
    (QuickDict.lat d) (QuickDict.lon d).

Definition with_throttle (n : Z) (d : QuickDict.t) : QuickDict.t :=
  QuickDict.mk (QuickDict.altitude d) (QuickDict.orientation d)
    (QuickDict.ground_speed d) (QuickDict.air_speed d)
    (QuickDict.dist_to_wp d) (QuickDict.voltage d) n
    (QuickDict.lat d) (QuickDict.lon d).

Definition with_quick_altitude (v : pyfloat) (d : QuickDict.t) : QuickDict.t :=
  QuickDict.mk v (QuickDict.orientation d)
    (QuickDict.ground_speed d) (QuickDict.air_speed d)
    (QuickDict.dist_to_wp d) (QuickDict.voltage d) (QuickDict.throttle d)
    (QuickDict.lat d) (QuickDict.lon d).

(** The exception the framework raises for a path it has no route for. *)
Definition a_not_found : PyException := {|
  exc_type := "HTTPException";
  exc_bases := ["Exception"; "BaseException"; "object"];
  exc_str := "";
  exc_traceback := [];
  exc_status_code := 404;
  exc_detail := PStr "Not Found"
|}.

(* ===================================================================== *)
(** * Vocabulary of the further properties                               *)
(* ===================================================================== *)

(** An integer lies in [[lo, hi)] or in [(lo, hi]]. *)
Definition int_in_co (lo hi n : Z) : Prop := lo <= n < hi.
Definition int_in_oc (lo hi n : Z) : Prop := lo < n <= hi.

(** Every element of a list of models is constructed without error. *)
Definition all_valid {A : Type} (validate : A -> list ValidationError)
    (l : list A) : Prop :=
  Forall (fun x => validate x = []) l.

Definition mission_request : Request :=
  {| method := "GET"; path := "/interop/mission" |}.

Definition quick_request : Request :=
  {| method := "GET"; path := "/uav/quick" |}.

(** The classes that have a handler in [app.py]. *)
Definition registered_classes : list string :=
  ["InvalidRequestError"; "InvalidStateError"; "RequestValidationError";
   "ServiceUnavailableError"; "GeneralError"; "Exception"].


(** The two records a handler logs for an exception: the name of its
    class, and the traceback line that carries the exception itself. *)
Definition error_line (e : PyException) : logging.Line :=
  {| logging.fmt := formatter;
     logging.record :=
       {| logging.levelno := logging.ERROR;
          logging.message := type_name e;
          logging.exc_info := None |} |}.

Definition traceback_line (e : PyException) : logging.Line :=
  {| logging.fmt := formatter;
     logging.record :=
       {| logging.levelno := logging.INFO;
          logging.message := traceback_of (type_name e);
          logging.exc_info := Some e |} |}.

(** [MissionIn(value)]: the member with that value, if there is one. *)
Definition MissionIn_of_value (s : string) : option MissionIn.t :=
  List.find (fun m => String.eqb (MissionIn.value m) s)
    [MissionIn.mission; MissionIn.waypoints; MissionIn.obstacles;
     MissionIn.teams; MissionIn.search; MissionIn.ugv; MissionIn.odlc;
     MissionIn.lost_comms].

(** The line written for a record that may carry an exception. *)
Definition line_of (lvl : Z) (msg : string) (exc : option PyException)
    : logging.Line :=
  {| logging.fmt := formatter;
     logging.record :=
       {| logging.levelno := lvl; logging.message := msg;
          logging.exc_info := exc |} |}.

(** The world [w'] differs from [w] only by lines added at the end of the
    console sink and of the two log files. *)
Definition only_appends (w w' : World) : Prop :=
  stdout w' = stdout w
  /\ stderr w `prefix_of` stderr w'
  /\ contents "log.txt" w `prefix_of` contents "log.txt" w'
  /\ contents "debug_log.txt" w `prefix_of` contents "debug_log.txt" w'
  /\ (forall f, f <> "log.txt" -> f <> "debug_log.txt" ->
        files w' !! f = files w !! f).

(** The fields of a vehicle status other than voltage and throttle are
    within their declared bounds. *)
Definition quick_rest_in_range (d : QuickDict.t) : Prop :=
  float_at_least 0 (QuickDict.altitude d)
  /\ int_in_co 0 360 (OrientationDict.yaw (QuickDict.orientation d))
  /\ int_in_oc (-180) 180 (OrientationDict.roll (QuickDict.orientation d))
  /\ int_in_oc (-180) 180 (OrientationDict.pitch (QuickDict.orientation d))
  /\ float_at_least 0 (QuickDict.ground_speed d)
  /\ float_at_least 0 (QuickDict.air_speed d)
  /\ float_at_least 0 (QuickDict.dist_to_wp d)
  /\ float_in_oc (-180) 180 (QuickDict.lat d)
  /\ float_in_oc (-180) 180 (QuickDict.lon d).

(** The entries a mapping has for the fields of a telemetry reading are of
    the declared types: floats for latitude and longitude, integers for
    altitude and heading. *)
Definition telemetry_entries_typed (o : gmap string pyval) : Prop :=
  (forall v, o !! "latitude" = Some v -> exists f, v = PFloat f)
  /\ (forall v, o !! "longitude" = Some v -> exists f, v = PFloat f)
  /\ (forall v, o !! "altitude" = Some v -> exists z, v = PInt z)
  /\ (forall v, o !! "heading" = Some v -> exists z, v = PInt z).

(** A telemetry mapping without altitude. *)
Definition telemetry_without_altitude : gmap string pyval :=
  list_to_map [("latitude", PFloat (Finite (38908233 # 1000000)));
               ("longitude", PFloat (Finite (-77180142 # 1000000)));
               ("heading", PInt 270)].


(* ===================================================================== *)
(** * Properties of the schema library                                   *)
(* ===================================================================== *)

Section Comparisons.

Lemma Qlt_bool_iff (x y : Q) : Qlt_bool x y = true <-> (x < y)%Q.
Proof.
  unfold Qlt_bool. rewrite negb_true_iff.
  split; intros Hxy.
  - apply Qnot_le_lt. intros Hle. apply Qle_bool_iff in Hle. congruence.
  - destruct (Qle_bool y x) eqn:E; [|reflexivity].
    apply Qle_bool_iff in E. exfalso. exact (Qlt_not_le _ _ Hxy E).
Qed.

Lemma float_gt_iff (v : pyfloat) (b : Z) :
  num_gt v b = true <-> float_above b v.
Proof.
  destruct v; simpl; rewrite ?Qlt_bool_iff; intuition congruence.
Qed.

Lemma float_ge_iff (v : pyfloat) (b : Z) :
  num_ge v b = true <-> float_at_least b v.
Proof.
  destruct v; simpl; rewrite ?Qle_bool_iff; intuition congruence.
Qed.

Lemma float_lt_iff (v : pyfloat) (b : Z) :
  num_lt v b = true <->
  match v with
  | Finite q => (q < inject_Z b)%Q
  | NegInf => True
  | _ => False
  end.
Proof.
  destruct v; simpl; rewrite ?Qlt_bool_iff; intuition congruence.
Qed.

Lemma float_le_iff (v : pyfloat) (b : Z) :
  num_le v b = true <->
  match v with
  | Finite q => (q <= inject_Z b)%Q
  | NegInf => True
  | _ => False
  end.
Proof.
  destruct v; simpl; rewrite ?Qle_bool_iff; intuition congruence.
Qed.

End Comparisons.

Section Validators.

Context {A : Type} `{PyNumber A}.

Lemma bound_error_None (cmp : A -> Z -> bool) error bound (v : A) :
  bound_error cmp error bound v = None <-> bound_ok cmp bound v.
Proof.
  unfold bound_error, bound_ok.
  destruct bound as [b|]; [destruct (cmp v b)|]; intuition congruence.
Qed.

Lemma number_size_validator_None (f : Field.t) (v : A) :
  number_size_validator f v = None <->
  bound_ok num_gt (Field.gt f) v /\ bound_ok num_ge (Field.ge f) v /\
  bound_ok num_lt (Field.lt f) v /\ bound_ok num_le (Field.le f) v.
Proof.
  unfold number_size_validator.
  rewrite <- (bound_error_None num_gt NumberNotGtError),
          <- (bound_error_None num_ge NumberNotGeError),
          <- (bound_error_None num_lt NumberNotLtError),
          <- (bound_error_None num_le NumberNotLeError).
  repeat match goal with
         | |- context [bound_error ?c ?e ?b v] =>
             destruct (bound_error c e b v)
         end; intuition congruence.
Qed.

Lemma field_errors_nil (name : string) (f : Field.t) (v : A) :
  field_errors name f v = [] <-> number_size_validator f v = None.
Proof.
  unfold field_errors.
  destruct (number_size_validator f v); intuition congruence.
Qed.

Lemma field_errors_In (name : string) (f : Field.t) (v : A) e :
  In e (field_errors name f v) <->
  exists k, number_size_validator f v = Some k /\ e = ([Key name], k).
Proof.
  unfold field_errors.
  destruct (number_size_validator f v) as [k|]; simpl.
  - split.
    + intros [<-|[]]. now exists k.
    + intros (k' & Hk & ->). left. congruence.
  - split; [tauto | intros (k & Hk & _); discriminate].
Qed.

End Validators.

Section Construction.

Context {A : Type} (validate : A -> list ValidationError).

Lemma construct_succeeds (v : A) :
  succeeds (construct validate v) <-> validate v = [].
Proof.
  unfold construct. destruct (validate v); simpl; intuition congruence.
Qed.

Lemma construct_raises (v : A) (e : ValidationError) :
  raises (construct validate v) e <-> In e (validate v).
Proof.
  unfold construct. destruct (validate v); simpl; tauto.
Qed.

Lemma construct_inr (v : A) :
  validate v = [] -> construct validate v = inr v.
Proof. unfold construct. now intros ->. Qed.

End Construction.

(** ** Degrees in (-180, 180] *)

Lemma degrees_float_ok (v : pyfloat) :
  number_size_validator LatLonDict.latitude_field v = None <->
  float_in_oc (-180) 180 v.
Proof.
  rewrite number_size_validator_None.
  unfold bound_ok, LatLonDict.latitude_field.
  cbn [Field.gt Field.ge Field.lt Field.le].
  rewrite float_gt_iff, float_le_iff. unfold float_in_oc.
  destruct v as [q| | |]; simpl.
  - split.
    + intros (Hgt & _ & _ & Hle). now exists q.
    + intros (q' & [= <-] & Hgt & Hle). tauto.
  - split; [tauto | intros (q & [=] & _)].
  - split; [tauto | intros (q & [=] & _)].
  - split; [tauto | intros (q & [=] & _)].
Qed.

Lemma degrees_float_below (v : pyfloat) :
  float_is (-180) v ->
  number_size_validator LatLonDict.latitude_field v
  = Some (NumberNotGtError (-180)).
Proof.
  intros (q & -> & Hq). unfold number_size_validator. simpl.
  destruct (Qlt_bool (inject_Z (-180)) q) eqn:E; [|reflexivity].
  apply Qlt_bool_iff in E. rewrite Hq in E.
  exfalso. exact (Qlt_irrefl _ E).
Qed.

Lemma degrees_float_above (v : pyfloat) :
  float_above 180 v ->
  number_size_validator LatLonDict.latitude_field v
  = Some (NumberNotLeError 180).
Proof.
  intros Hv. unfold number_size_validator. simpl.
  destruct v as [q| | |]; simpl in *; try tauto.
  assert (Hlo : Qlt_bool (inject_Z (-180)) q = true).
  { apply Qlt_bool_iff. eapply Qlt_trans; [|exact Hv]. reflexivity. }
  rewrite Hlo.
  destruct (Qle_bool q (inject_Z 180)) eqn:E; [|reflexivity].
  apply Qle_bool_iff in E. exfalso. exact (Qlt_not_le _ _ Hv E).
Qed.

Lemma LatLonDict_valid (d : LatLonDict.t) :
  LatLonDict.validate d = [] <->
  float_in_oc (-180) 180 (LatLonDict.latitude d) /\
  float_in_oc (-180) 180 (LatLonDict.longitude d).
Proof.
  unfold LatLonDict.validate.
  rewrite app_nil, !field_errors_nil.
  change LatLonDict.longitude_field with LatLonDict.latitude_field.
  now rewrite !degrees_float_ok.
Qed.

(** C4. A GeographicPoint ([LatLonDict]) is constructed exactly when its
    latitude and its longitude both lie in (-180, 180]. A latitude or
    longitude equal to -180 raises a validation error (not greater than
    -180) at that field, one strictly greater than 180 raises a validation
    error (not at most 180) at that field, and the point at latitude 180
    and longitude 180 is constructed. *)
Theorem GeographicPoint_open_closed_range :
  (forall lat lon : pyfloat,
     succeeds (LatLonDict.init lat lon) <->
     float_in_oc (-180) 180 lat /\ float_in_oc (-180) 180 lon)
  /\ (forall v other : pyfloat,
        float_is (-180) v ->
        raises (LatLonDict.init v other)
          ([Key "latitude"], NumberNotGtError (-180)) /\
        raises (LatLonDict.init other v)
          ([Key "longitude"], NumberNotGtError (-180)))
  /\ (forall v other : pyfloat,
        float_above 180 v ->
        raises (LatLonDict.init v other)
          ([Key "latitude"], NumberNotLeError 180) /\
        raises (LatLonDict.init other v)
          ([Key "longitude"], NumberNotLeError 180))
  /\ LatLonDict.init (float_of_Z 180) (float_of_Z 180)
     = inr (LatLonDict.mk (float_of_Z 180) (float_of_Z 180)).
Proof.
  split; [|split; [|split]].
  - intros lat lon. unfold LatLonDict.init.
    rewrite construct_succeeds. apply LatLonDict_valid.
  - intros v other Hv. unfold LatLonDict.init.
    rewrite !construct_raises. unfold LatLonDict.validate. simpl.
    split; apply in_or_app; [left|right]; apply field_errors_In;
      eexists; (split; [apply degrees_float_below; exact Hv | reflexivity]).
  - intros v other Hv. unfold LatLonDict.init.
    rewrite !construct_raises. unfold LatLonDict.validate. simpl.
    split; apply in_or_app; [left|right]; apply field_errors_In;
      eexists; (split; [apply degrees_float_above; exact Hv | reflexivity]).
  - reflexivity.
Qed.

Example GeographicPoint_example :
  succeeds (LatLonDict.init example_latitude example_longitude).
Proof. exact I. Qed.

Example GeographicPoint_at_minus_180 :
  LatLonDict.init (float_of_Z (-180)) example_longitude
  = inl [([Key "latitude"], NumberNotGtError (-180))].
Proof. reflexivity. Qed.

Example GeographicPoint_just_above_180 :
  LatLonDict.init example_latitude (Finite (180000001 # 1000000))
  = inl [([Key "longitude"], NumberNotLeError 180)].
Proof. reflexivity. Qed.

Example GeographicPoint_not_a_number :
  LatLonDict.init NaN PosInf
  = inl [([Key "latitude"], NumberNotGtError (-180));
         ([Key "longitude"], NumberNotLeError 180)].
Proof. reflexivity. Qed.

(** ** Errors by location *)

Section Locations.

Context {A : Type} `{PyNumber A}.

Lemma errors_at_app (l : Loc) (e1 e2 : list ValidationError) :
  errors_at l (e1 ++ e2) = errors_at l e1 ++ errors_at l e2.
Proof. apply filter_app. Qed.

Lemma errors_at_field_same (name : string) (f : Field.t) (v : A) :
  errors_at [Key name] (field_errors name f v) = field_errors name f v.
Proof.
  unfold errors_at, field_errors.
  destruct (number_size_validator f v); [|reflexivity].
  rewrite filter_cons. simpl. now rewrite decide_True.
Qed.

Lemma errors_at_field_other (name name' : string) (f : Field.t) (v : A) :
  name <> name' ->
  errors_at [Key name'] (field_errors name f v) = [].
Proof.
  intros Hne. unfold errors_at, field_errors.
  destruct (number_size_validator f v); [|reflexivity].
  rewrite filter_cons. simpl. rewrite decide_False; [reflexivity|].
  intros [= E]. now apply Hne.
Qed.

Lemma errors_at_under_other (item : LocItem) (name : string) errs :
  item <> Key name -> errors_at [Key name] (under item errs) = [].
Proof.
  intros Hne. unfold errors_at, under.
  induction errs as [|e errs IH]; [reflexivity|].
  simpl. rewrite filter_cons. simpl.
  rewrite decide_False; [exact IH|].
  intros [= E _]. now apply Hne.
Qed.

End Locations.

Lemma under_nil (item : LocItem) (errs : list ValidationError) :
  under item errs = [] <-> errs = [].
Proof. unfold under. destruct errs; simpl; intuition congruence. Qed.

Section Lists.

Context {A : Type} (validate : A -> list ValidationError).

Lemma indexed_errors_nil (g : nat -> A -> list ValidationError) vs :
  (forall i v, g i v = [] <-> validate v = []) ->
  concat (imap g vs) = [] <-> Forall (fun v => validate v = []) vs.
Proof.
  revert g. induction vs as [|v vs IH]; intros g Hg; simpl.
  - split; [constructor | reflexivity].
  - rewrite app_nil, Hg, (IH (g ∘ S)).
    + split; [intros [Hv Hvs]; now constructor | now inversion 1].
    + intros i w. apply Hg.
Qed.

Lemma list_errors_nil (name : string) (vs : list A) :
  list_errors validate name vs = [] <->
  Forall (fun v => validate v = []) vs.
Proof.
  unfold list_errors. rewrite under_nil.
  apply indexed_errors_nil. intros i v. apply under_nil.
Qed.

Lemma list_errors_map {B : Type} (validate' : B -> list ValidationError)
    (f : A -> B) (name : string) (vs : list A) :
  (forall v, validate v = validate' (f v)) ->
  list_errors validate name vs = list_errors validate' name (map f vs).
Proof.
  intros Hf. unfold list_errors. f_equal. f_equal.
  generalize Idx as ix.
  induction vs as [|v vs IH]; intros ix; [reflexivity|].
  simpl. rewrite Hf. f_equal. apply (IH (ix ∘ S)).
Qed.

End Lists.

(** ** QuickStatus *)

Lemma voltage_ok (v : pyfloat) :
  number_size_validator QuickDict.voltage_field v = None <->
  float_in_co 0 20 v.
Proof.
  rewrite number_size_validator_None.
  unfold bound_ok, QuickDict.voltage_field.
  cbn [Field.gt Field.ge Field.lt Field.le].
  rewrite float_ge_iff, float_lt_iff. unfold float_in_co.
  destruct v as [q| | |]; simpl.
  - split.
    + intros (_ & Hge & Hlt & _). now exists q.
    + intros (q' & [= <-] & Hge & Hlt). tauto.
  - split; [tauto | intros (q & [=] & _)].
  - split; [tauto | intros (q & [=] & _)].
  - split; [tauto | intros (q & [=] & _)].
Qed.

Lemma voltage_twenty (v : pyfloat) :
  float_is 20 v ->
  number_size_validator QuickDict.voltage_field v
  = Some (NumberNotLtError 20).
Proof.
  intros (q & -> & Hq). unfold number_size_validator. simpl.
  assert (Hge : Qle_bool (inject_Z 0) q = true).
  { apply Qle_bool_iff. rewrite Hq. discriminate. }
  rewrite Hge.
  destruct (Qlt_bool q (inject_Z 20)) eqn:E; [|reflexivity].
  apply Qlt_bool_iff in E. rewrite Hq in E.
  exfalso. exact (Qlt_irrefl _ E).
Qed.

Lemma throttle_ok (n : Z) :
  number_size_validator QuickDict.throttle_field n = None <->
  0 <= n <= 100.
Proof.
  rewrite number_size_validator_None.
  unfold bound_ok, QuickDict.throttle_field. simpl.
  rewrite Z.leb_le, Z.leb_le. tauto.
Qed.

Lemma quick_altitude_ok (v : pyfloat) :
  number_size_validator QuickDict.altitude_field v = None <->
  float_at_least 0 v.
Proof.
  rewrite number_size_validator_None.
  unfold bound_ok, QuickDict.altitude_field.
  cbn [Field.gt Field.ge Field.lt Field.le].
  rewrite float_ge_iff. tauto.
Qed.

(** The errors a QuickStatus construction reports at one of its own
    numeric fields are those of that field's declaration. *)
Ltac quick_errors_at :=
  unfold QuickDict.validate, nested_errors;
  rewrite !errors_at_app;
  rewrite ?errors_at_field_same;
  rewrite ?errors_at_field_other by discriminate;
  rewrite ?errors_at_under_other by discriminate;
  rewrite ?app_nil_r; simpl.

Lemma quick_errors_at_voltage (d : QuickDict.t) :
  errors_at [Key "voltage"] (QuickDict.validate d)
  = field_errors "voltage" QuickDict.voltage_field (QuickDict.voltage d).
Proof. quick_errors_at. reflexivity. Qed.

Lemma quick_errors_at_throttle (d : QuickDict.t) :
  errors_at [Key "throttle"] (QuickDict.validate d)
  = field_errors "throttle" QuickDict.throttle_field (QuickDict.throttle d).
Proof. quick_errors_at. reflexivity. Qed.

Lemma quick_errors_at_altitude (d : QuickDict.t) :
  errors_at [Key "altitude"] (QuickDict.validate d)
  = field_errors "altitude" QuickDict.altitude_field (QuickDict.altitude d).
Proof. quick_errors_at. reflexivity. Qed.

Lemma errors_at_nil_of_nil (l : Loc) (errs : list ValidationError) :
  errs = [] -> accepted l errs.
Proof. now intros ->. Qed.

Example QuickStatus_example : QuickDict.init example_quick = inr example_quick.
Proof. reflexivity. Qed.

Example QuickStatus_throttle_bounds :
  succeeds (QuickDict.init (with_throttle 0 example_quick))
  /\ succeeds (QuickDict.init (with_throttle 100 example_quick))
  /\ QuickDict.init (with_throttle 101 example_quick)
     = inl [([Key "throttle"], NumberNotLeError 100)].
Proof. repeat split. Qed.

Example QuickStatus_voltage_twenty :
  QuickDict.init (with_voltage (float_of_Z 20) example_quick)
  = inl [([Key "voltage"], NumberNotLtError 20)].
Proof. reflexivity. Qed.

(** ** FlightZone *)

Lemma non_negative_ok (n : Z) :
  number_size_validator FlyZoneDict.altitudeMin_field n = None <->
  non_negative n.
Proof.
  rewrite number_size_validator_None.
  unfold bound_ok, FlyZoneDict.altitudeMin_field, non_negative. simpl.
  rewrite Z.leb_le. tauto.
Qed.

Lemma FlyZoneDict_valid (d : FlyZoneDict.t) :
  FlyZoneDict.validate d = [] <->
  non_negative (FlyZoneDict.altitudeMin d) /\
  non_negative (FlyZoneDict.altitudeMax d) /\
  Forall (fun p => LatLonDict.validate p = []) (FlyZoneDict.boundaryPoints d).
Proof.
  unfold FlyZoneDict.validate.
  rewrite !app_nil, !field_errors_nil, list_errors_nil.
  change FlyZoneDict.altitudeMax_field with FlyZoneDict.altitudeMin_field.
  now rewrite !non_negative_ok.
Qed.

(** C6. A FlightZone ([FlyZoneDict]) is constructed exactly when
    altitudeMin and altitudeMax are both non-negative integers and every
    boundary point is a valid GeographicPoint; altitudeMin <= altitudeMax is
    not asked for: the zone with altitudeMin 750, altitudeMax 100 and no
    boundary point is constructed although 750 > 100. *)
Theorem FlightZone_altitudes_non_negative_unordered :
  (forall (altitudeMin altitudeMax : Z) (points : list LatLonDict.t),
     succeeds (FlyZoneDict.init altitudeMin altitudeMax points) <->
     non_negative altitudeMin /\ non_negative altitudeMax /\
     Forall (fun p => succeeds (construct LatLonDict.validate p)) points)
  /\ (exists (altitudeMin altitudeMax : Z) (points : list LatLonDict.t),
        altitudeMax < altitudeMin /\
        FlyZoneDict.init altitudeMin altitudeMax points
        = inr (FlyZoneDict.mk altitudeMin altitudeMax points)).
Proof.
  split.
  - intros mn mx pts. unfold FlyZoneDict.init.
    rewrite construct_succeeds, FlyZoneDict_valid. simpl.
    rewrite !Forall_forall.
    setoid_rewrite construct_succeeds. tauto.
  - exists 750, 100, []. split; [lia | reflexivity].
Qed.

(** ** Altitude of a GeographicPointWithAltitude *)

Lemma unconstrained_ok (n : Z) :
  number_size_validator Field.required n = None.
Proof. reflexivity. Qed.

Lemma LatLonAltDict_validate_base (d : LatLonAltDict.t) :
  LatLonAltDict.validate d = LatLonDict.validate (LatLonAltDict.base d).
Proof.
  unfold LatLonAltDict.validate, LatLonAltDict.altitude_field, field_errors.
  rewrite unconstrained_ok. apply app_nil_r.
Qed.

Lemma LatLonAltDict_validate_altitude (alt : Z) (p : LatLonAltDict.t) :
  LatLonAltDict.validate (with_altitude alt p) = LatLonAltDict.validate p.
Proof. now rewrite !LatLonAltDict_validate_base. Qed.

Lemma waypoints_errors_altitude (f : LatLonAltDict.t -> Z) wps :
  list_errors LatLonAltDict.validate "waypoints"
    (map (fun p => with_altitude (f p) p) wps)
  = list_errors LatLonAltDict.validate "waypoints" wps.
Proof.
  symmetry. apply list_errors_map.
  intros p. symmetry. apply LatLonAltDict_validate_altitude.
Qed.

(** C10. The altitude of a GeographicPointWithAltitude ([LatLonAltDict])
    is unconstrained: with a valid latitude and longitude the construction
    succeeds for every integer altitude, negative ones included, and the
    errors never depend on the altitude. The same holds of a
    TelemetryReading and of the waypoints of a Mission, whose errors are
    unchanged when altitudes are replaced by arbitrary integers. The
    altitude of a QuickStatus, in contrast, is accepted exactly when it is
    at least 0, and -1 is rejected. *)
Theorem altitude_unconstrained_except_QuickStatus :
  (forall (lat lon : pyfloat) (alt : Z),
     float_in_oc (-180) 180 lat -> float_in_oc (-180) 180 lon ->
     LatLonAltDict.init lat lon alt = inr (LatLonAltDict.mk lat lon alt))
  /\ (forall (lat lon : pyfloat) (alt alt' : Z),
        LatLonAltDict.validate (LatLonAltDict.mk lat lon alt)
        = LatLonAltDict.validate (LatLonAltDict.mk lat lon alt'))
  /\ (forall (lat lon : pyfloat) (alt alt' heading : Z),
        TelemetryDict.validate (TelemetryDict.mk lat lon alt heading)
        = TelemetryDict.validate (TelemetryDict.mk lat lon alt' heading))
  /\ (forall (d : MissionDict.t) (f : LatLonAltDict.t -> Z),
        MissionDict.validate
          (with_waypoints
             (map (fun p => with_altitude (f p) p) (MissionDict.waypoints d)) d)
        = MissionDict.validate d)
  /\ (forall d : QuickDict.t,
        accepted [Key "altitude"] (QuickDict.validate d) <->
        float_at_least 0 (QuickDict.altitude d))
  /\ (forall d : QuickDict.t,
        float_is (-1) (QuickDict.altitude d) ->
        raises (QuickDict.init d) ([Key "altitude"], NumberNotGeError 0)).
Proof.
  split; [|split; [|split; [|split; [|split]]]].
  - intros lat lon alt Hlat Hlon. unfold LatLonAltDict.init.
    apply construct_inr. rewrite LatLonAltDict_validate_base.
    apply LatLonDict_valid. now split.
  - intros. now rewrite !LatLonAltDict_validate_base.
  - intros. unfold TelemetryDict.validate.
    now rewrite !LatLonAltDict_validate_base.
  - intros d f. unfold MissionDict.validate, with_waypoints.
    cbn [MissionDict.id MissionDict.lostCommsPos MissionDict.flyZones
         MissionDict.waypoints MissionDict.searchGridPoints
         MissionDict.offAxisOdlcPos MissionDict.emergentLastKnownPos
         MissionDict.airDropBoundaryPoints MissionDict.airDropPos
         MissionDict.ugvDrivePos MissionDict.stationaryObstacles
         MissionDict.mapCenterPos MissionDict.mapHeight].
    now rewrite waypoints_errors_altitude.
  - intros d. unfold accepted.
    now rewrite quick_errors_at_altitude, field_errors_nil, quick_altitude_ok.
  - intros d (q & Hq & Hneg). unfold QuickDict.init.
    rewrite construct_raises. unfold QuickDict.validate.
    apply in_or_app; left. apply field_errors_In. eexists.
    split; [|reflexivity].
    rewrite Hq. unfold number_size_validator. simpl.
    destruct (Qle_bool (inject_Z 0) q) eqn:E; [|reflexivity].
    apply Qle_bool_iff in E. rewrite Hneg in E. now exfalso.
Qed.

Example waypoint_below_sea_level :
  LatLonAltDict.init example_latitude example_longitude (-1200)
  = inr (LatLonAltDict.mk example_latitude example_longitude (-1200)).
Proof. reflexivity. Qed.

Example QuickStatus_below_sea_level :
  QuickDict.init (with_quick_altitude (float_of_Z (-1)) example_quick)
  = inl [([Key "altitude"], NumberNotGeError 0)].
Proof. reflexivity. Qed.

Example FlightZone_bad_boundary_point :
  FlyZoneDict.init 100 750
    [LatLonDict.mk example_latitude example_longitude;
     LatLonDict.mk example_latitude (float_of_Z (-200))]
  = inl [([Key "boundaryPoints"; Idx 1; Key "longitude"],
          NumberNotGtError (-180))].
Proof. reflexivity. Qed.

(* ===================================================================== *)
(** * Properties of the gateway                                          *)
(* ===================================================================== *)

(** ** Exception handlers *)

Lemma io_seq {A B : Type} (m : IO A) (k : IO B) (w : World) :
  (m ;; k) w = k (snd (m w)).
Proof. unfold mbind, IO_bind. now destruct (m w). Qed.

Lemma io_ret {A : Type} (a : A) (w : World) : (mret a : IO A) w = (a, w).
Proof. reflexivity. Qed.

(** A handler answers with its status code and its title whatever it
    logs. *)
Ltac run_handler :=
  intros; rewrite !io_seq, io_ret; reflexivity.

Lemma handle_400_response r e w :
  fst (handle_400 r e w) = mkJSONResponse 400 (envelope "Invalid Request" e).
Proof. unfold handle_400. run_handler. Qed.

Lemma handle_409_response r e w :
  fst (handle_409 r e w) = mkJSONResponse 409 (envelope "Invalid State" e).
Proof. unfold handle_409. run_handler. Qed.

Lemma handle_422_response r e w :
  fst (handle_422 r e w)
  = mkJSONResponse 422 (envelope "Request Validation Failed" e).
Proof. unfold handle_422. run_handler. Qed.

Lemma handle_503_response r e w :
  fst (handle_503 r e w)
  = mkJSONResponse 503 (envelope "Service Unavailable" e).
Proof. unfold handle_503. run_handler. Qed.

Lemma handle_500_response r e w :
  fst (handle_500 r e w) = mkJSONResponse 500 (envelope "Server Error" e).
Proof. unfold handle_500. run_handler. Qed.

Lemma envelope_schema (title : string) (e : PyException) :
  envelope title e = error_envelope title e.
Proof. reflexivity. Qed.


Lemma unregistered_class (cls : string) :
  ~ In cls specific_classes -> cls <> "GeneralError" -> cls <> "Exception" ->
  exception_handlers !! cls = None.
Proof.
  intros Hs Hg He. unfold exception_handlers.
  simpl in Hs.
  rewrite !lookup_insert_ne by (intros <-; tauto).
  apply lookup_empty.
Qed.


Lemma handle_exception_found r e w (h : ExceptionHandlerFn) :
  lookup_handler exception_handlers (mro e) = Some h ->
  fst (handle_exception r e w) = Some (fst (h r e w)).
Proof.
  intros Hh. unfold handle_exception. rewrite Hh.
  unfold mbind, IO_bind. now destruct (h r e w).
Qed.

(** Whichever handler is found, its response is an envelope with the
    title that goes with its status code. *)
Lemma handler_found_cases (classes : list string) (h : ExceptionHandlerFn) :
  lookup_handler exception_handlers classes = Some h ->
  h = handle_400 \/ h = handle_409 \/ h = handle_422 \/ h = handle_503 \/
  h = handle_500.
Proof.
  induction classes as [|cls rest IH]; [discriminate|].
  cbn [lookup_handler].
  destruct (exception_handlers !! cls) as [h'|] eqn:E; [|exact IH].
  intros [= <-]. unfold exception_handlers in E.
  repeat (apply lookup_insert_Some in E as [[_ <-]|[_ E]]; [tauto|]).
  now rewrite lookup_empty in E.
Qed.

Lemma handle_exception_response r e w resp :
  fst (handle_exception r e w) = Some resp ->
  In (status_code resp) [400; 409; 422; 503; 500] /\
  content resp = error_envelope (handler_title (status_code resp)) e.
Proof.
  unfold handle_exception.
  destruct (lookup_handler exception_handlers (mro e)) as [h|] eqn:Hh;
    [|discriminate].
  apply handler_found_cases in Hh.
  unfold mbind, IO_bind. destruct (h r e w) as [resp' w'] eqn:Hrun.
  simpl. intros [= <-].
  assert (Hresp : resp' = fst (h r e w)) by now rewrite Hrun.
  destruct Hh as [->|[->|[->|[->| ->]]]];
    [rewrite handle_400_response in Hresp
    |rewrite handle_409_response in Hresp
    |rewrite handle_422_response in Hresp
    |rewrite handle_503_response in Hresp
    |rewrite handle_500_response in Hresp];
    subst resp'; simpl; (split; [tauto | reflexivity]).
Qed.


(** ** The handlers of the running application *)

Lemma all_handlers_http :
  all_exception_handlers !! "HTTPException" = Some http_exception_handler.
Proof.
  unfold all_exception_handlers. rewrite lookup_union.
  rewrite unregistered_class; [|simpl; intuition discriminate|discriminate..].
  now rewrite lookup_singleton_eq.
Qed.

Lemma all_handlers_other (cls : string) :
  cls <> "HTTPException" ->
  all_exception_handlers !! cls = exception_handlers !! cls.
Proof.
  intros Hne. unfold all_exception_handlers.
  rewrite lookup_union, lookup_singleton_ne by congruence.
  now destruct (exception_handlers !! cls).
Qed.

Lemma lookup_handler_without_http (classes : list string) :
  ~ In "HTTPException" classes ->
  lookup_handler all_exception_handlers classes
  = lookup_handler exception_handlers classes.
Proof.
  induction classes as [|cls rest IH]; intros Hnot; [reflexivity|].
  cbn [lookup_handler].
  rewrite all_handlers_other by (intros ->; apply Hnot; now left).
  rewrite IH; [reflexivity|]. intros Hin. apply Hnot. now right.
Qed.

Lemma exception_middleware_without_http r e w :
  ~ In "HTTPException" (mro e) ->
  exception_middleware r e w = handle_exception r e w.
Proof.
  intros Hnot. unfold exception_middleware, handle_exception.
  now rewrite lookup_handler_without_http.
Qed.


Lemma lookup_handler_is_Some (classes : list string) :
  In "Exception" classes ->
  is_Some (lookup_handler exception_handlers classes).
Proof.
  induction classes as [|cls rest IH]; intros Hin; [destruct Hin|].
  cbn [lookup_handler].
  destruct (exception_handlers !! cls) as [h|] eqn:E; [eauto|].
  apply IH. destruct Hin as [->|Hin]; [|assumption].
  change (Some handle_500 = None) in E. discriminate E.
Qed.

Lemma handle_exception_is_Some r e w :
  In "Exception" (mro e) -> is_Some (fst (handle_exception r e w)).
Proof.
  intros Hin. destruct (lookup_handler_is_Some _ Hin) as [h Hh].
  rewrite (handle_exception_found r e w h Hh). eauto.
Qed.

Lemma status_of_class r e w (h : ExceptionHandlerFn) :
  exception_handlers !! type_name e = Some h ->
  status_of (handle_exception r e w) = Some (status_code (fst (h r e w))).
Proof.
  intros Hh. unfold status_of.
  rewrite (handle_exception_found r e w h); [reflexivity|].
  unfold mro. cbn [lookup_handler]. unfold type_name in Hh. now rewrite Hh.
Qed.







Example invalid_state_under_general_error :
  status_of
    (handle_exception a_request
       {| exc_type := "InvalidStateError";
          exc_bases := ["GeneralError"; "Exception"; "BaseException"; "object"];
          exc_str := "Not logged in";
          exc_traceback := [];
          exc_status_code := 500;
          exc_detail := PNone |}
       empty_world)
  = Some 409.
Proof. reflexivity. Qed.

Example key_error_is_a_server_error :
  status_of
    (handle_exception a_request
       {| exc_type := "KeyError";
          exc_bases := ["LookupError"; "Exception"; "BaseException"; "object"];
          exc_str := "i_login";
          exc_traceback := [];
          exc_status_code := 500;
          exc_detail := PNone |}
       empty_world)
  = Some 500.
Proof. reflexivity. Qed.

(** C2 as the spec states it fails: the response to a GeneralError has
    the title "Server Error", not the table's "General / unclassified". *)
Lemma general_error_title_is_not_the_table_label :
  ~ (forall (r : Request) (e : PyException) (w : World) (resp : JSONResponse),
       fst (handle_exception r e w) = Some resp ->
       field_of "title" (content resp)
       = Some (PStr (table_title (status_code resp)))).
Proof.
  intros Hall.
  specialize (Hall a_request a_general_error empty_world
                (mkJSONResponse 500 (envelope "Server Error" a_general_error))
                eq_refl).
  vm_compute in Hall. discriminate Hall.
Qed.

(** C2, amended. Every exception that is not an HTTPException gets a
    response whose body is the envelope with: as title the fixed title of
    the handler that answered ("Invalid Request" for 400, "Invalid State"
    for 409, "Request Validation Failed" for 422, "Service Unavailable"
    for 503 and "Server Error" for 500), as message the text of the
    exception, as exception the name of its class, and as traceback its
    stack-trace lines. (An HTTPException is answered by the framework,
    without any of these fields.) *)
Theorem envelope_fields_of_failure :
  forall (r : Request) (e : PyException) (w : World),
    In "Exception" (mro e) ->
    ~ In "HTTPException" (mro e) ->
    exists resp,
      fst (exception_middleware r e w) = Some resp
      /\ fst (handle_exception r e w) = Some resp
      /\ content resp = error_envelope (handler_title (status_code resp)) e
      /\ field_of "title" (content resp)
         = Some (PStr (handler_title (status_code resp)))
      /\ field_of "message" (content resp) = Some (PStr (exc_str e))
      /\ field_of "exception" (content resp) = Some (PStr (type_name e))
      /\ field_of "traceback" (content resp)
         = Some (PList (map PStr (exc_traceback e)))
      /\ (status_code resp = 500 ->
          field_of "title" (content resp) = Some (PStr "Server Error")).
Proof.
  intros r e w Hin Hhttp.
  destruct (handle_exception_is_Some r e w Hin) as [resp Hresp].
  exists resp.
  split; [now rewrite exception_middleware_without_http|].
  split; [exact Hresp|].
  destruct (handle_exception_response r e w resp Hresp) as [_ Hc].
  rewrite Hc. repeat split. intros ->. reflexivity.
Qed.

Lemma envelope_fields_of_failure_witness :
  exists resp,
    fst (exception_middleware a_request a_general_error empty_world)
    = Some resp
    /\ status_code resp = 500
    /\ field_of "title" (content resp) = Some (PStr "Server Error").
Proof.
  destruct (envelope_fields_of_failure a_request a_general_error empty_world)
    as (resp & Hresp & Hresp' & Hc & Ht & _ & _ & _ & H500).
  - simpl. tauto.
  - simpl. intuition discriminate.
  - exists resp. split; [exact Hresp|].
    assert (Hs : status_code resp = 500).
    { vm_compute in Hresp'. now injection Hresp' as <-. }
    split; [exact Hs | exact (H500 Hs)].
Defined.

(** ** Routes *)

Section Routes.

Context {S : Type} (gs : GroundStation S).
Variable response_validation_error : list ValidationError -> PyException.


Lemma find_telemetry :
  find_route gs telemetry_request = Some (interop_telemetry_route gs).
Proof. reflexivity. Qed.


(** The response to an exception does not depend on what has been
    written so far. *)
Lemma handle_exception_any_world r e (w w' : World) :
  fst (handle_exception r e w) = fst (handle_exception r e w').
Proof.
  unfold handle_exception.
  destruct (lookup_handler exception_handlers (mro e)) as [h|] eqn:Hh;
    [|reflexivity].
  apply handler_found_cases in Hh.
  unfold mbind, IO_bind.
  assert (Hfst : fst (h r e w) = fst (h r e w')).
  { destruct Hh as [->|[->|[->|[->| ->]]]];
      now rewrite ?handle_400_response, ?handle_409_response,
        ?handle_422_response, ?handle_503_response, ?handle_500_response. }
  destruct (h r e w), (h r e w'). simpl in *. now subst.
Qed.

(** The response of a route is a function of what its endpoint gives. *)
Lemma serve_response rt r (w : World) (s : S) :
  fst (serve response_validation_error rt r (w, s))
  = match fst (endpoint rt s) with
    | inr v =>
        match response_model rt v with
        | inr body => Some (mkJSONResponse (route_status_code rt) body)
        | inl errs =>
            fst (handle_exception r (response_validation_error errs)
                   empty_world)
        end
    | inl e => fst (handle_exception r e empty_world)
    end.
Proof.
  unfold serve. destruct (endpoint rt s) as [[e|v] s']; simpl.
  - rewrite (handle_exception_any_world r e empty_world w).
    now destruct (handle_exception r e w).
  - destruct (response_model rt v) as [errs|body]; [|reflexivity].
    rewrite (handle_exception_any_world r _ empty_world w).
    now destruct (handle_exception r (response_validation_error errs) w).
Qed.

Lemma serve_controller_state rt r (w : World) (s : S) :
  snd (snd (serve response_validation_error rt r (w, s)))
  = snd (endpoint rt s).
Proof.
  unfold serve. destruct (endpoint rt s) as [[e|v] s']; simpl.
  - now destruct (handle_exception r e w).
  - destruct (response_model rt v) as [errs|body]; [|reflexivity].
    now destruct (handle_exception r (response_validation_error errs) w).
Qed.

End Routes.




(** A returned value whose "result" entry is not a mapping does not fit
    [GeneralOut]: the login request is then answered by the catch-all
    handler, with status 500. *)
Example login_result_not_a_mapping :
  call (constant_controller (result_envelope (PInt 5))) "i_login" [] tt
  = (inr (result_envelope (PInt 5)), tt)
  /\ status_code
       <$> (handle_request (constant_controller (result_envelope (PInt 5)))
              a_validation_error login_request (empty_world, tt)
            ≫= fst)
     = Some 500.
Proof. split; reflexivity. Qed.

(** C9. When the i_telemetry command returns the same outcome on two
    successive calls, the two GET /interop/telemetry requests get the same
    response, whatever the Controller's state and whatever was logged in
    between; when that outcome is a value that fits [TelemetryOut], both
    responses are the success envelope with status 200 and that reading
    under "result". *)
Theorem telemetry_twice_same_envelope :
  forall (S : Type) (gs : GroundStation S)
         (response_validation_error : list ValidationError -> PyException)
         (w : World) (s s1 s2 : S) (outcome1 outcome2 : PyException + pyval)
         (first second : option JSONResponse) (p1 p2 : World * S),
    call gs "i_telemetry" [] s = (outcome1, s1) ->
    call gs "i_telemetry" [] s1 = (outcome2, s2) ->
    outcome1 = outcome2 ->
    handle_request gs response_validation_error telemetry_request (w, s)
    = Some (first, p1) ->
    handle_request gs response_validation_error telemetry_request p1
    = Some (second, p2) ->
    first = second
    /\ snd p1 = s1 /\ snd p2 = s2
    /\ (forall (v : pyval) (t : TelemetryOut.t),
          outcome1 = inr v -> TelemetryOut.parse_obj v = inr t ->
          first = Some (mkJSONResponse 200 (TelemetryOut.dict t))).
Proof.
  intros S gs rve w s s1 s2 outcome1 outcome2 first second p1 p2
    Hcall1 Hcall2 Hsame Hfirst Hsecond.
  unfold handle_request in Hfirst, Hsecond.
  rewrite find_telemetry in Hfirst, Hsecond.
  apply (inj Some) in Hfirst. apply (inj Some) in Hsecond.
  assert (Hp1 : snd p1 = s1).
  { pose proof (f_equal (fun x => snd (snd x)) Hfirst) as Hs.
    cbv beta in Hs. rewrite serve_controller_state in Hs.
    unfold interop_telemetry_route, interop_telemetry in Hs.
    cbn [endpoint] in Hs. rewrite Hcall1 in Hs. now symmetry. }
  destruct p1 as [w1 s1']. cbn [snd] in Hp1. subst s1'.
  assert (Hp2 : snd p2 = s2).
  { pose proof (f_equal (fun x => snd (snd x)) Hsecond) as Hs.
    cbv beta in Hs. rewrite serve_controller_state in Hs.
    unfold interop_telemetry_route, interop_telemetry in Hs.
    cbn [endpoint] in Hs. rewrite Hcall2 in Hs. now symmetry. }
  apply (f_equal fst) in Hfirst, Hsecond. cbn [fst] in Hfirst, Hsecond.
  rewrite serve_response in Hfirst, Hsecond.
  unfold interop_telemetry_route, interop_telemetry in Hfirst, Hsecond.
  cbn [endpoint response_model route_status_code] in Hfirst, Hsecond.
  rewrite Hcall1 in Hfirst. rewrite Hcall2 in Hsecond.
  cbn [fst] in Hfirst, Hsecond. subst outcome2.
  split; [congruence | split; [reflexivity | split; [exact Hp2|]]].
  intros v t -> Ht.
  unfold response_field in Hfirst. rewrite Ht in Hfirst. now symmetry.
Qed.

Lemma telemetry_twice_same_envelope_witness :
  exists t : TelemetryOut.t,
    TelemetryOut.parse_obj a_telemetry = inr t
    /\ fst (serve a_validation_error
              (interop_telemetry_route (constant_controller a_telemetry))
              telemetry_request (empty_world, tt))
       = Some (mkJSONResponse 200 (TelemetryOut.dict t))
    /\ fst (serve a_validation_error
              (interop_telemetry_route (constant_controller a_telemetry))
              telemetry_request (empty_world, tt))
       = fst (serve a_validation_error
                (interop_telemetry_route (constant_controller a_telemetry))
                telemetry_request
                (snd (serve a_validation_error
                        (interop_telemetry_route
                           (constant_controller a_telemetry))
                        telemetry_request (empty_world, tt)))).
Proof.
  destruct
    (telemetry_twice_same_envelope unit (constant_controller a_telemetry)
       a_validation_error empty_world
       tt tt tt (inr a_telemetry) (inr a_telemetry) _ _ _ _
       eq_refl eq_refl eq_refl eq_refl eq_refl) as (Hsame & _ & _ & Hok).
  eexists. split; [vm_compute; reflexivity|].
  split; [|exact Hsame].
  apply (Hok a_telemetry); [reflexivity | vm_compute; reflexivity].
Defined.

(** ** Cross-origin policy *)

Lemma contains_In (l : list string) (s : string) :
  contains l s = true <-> In s l.
Proof.
  unfold contains. rewrite existsb_exists. split.
  - intros (x & Hx & E). apply String.eqb_eq in E. now subst.
  - intros Hin. exists s. split; [assumption | apply String.eqb_refl].
Qed.

(** C7 as the spec states it fails: the policy does not allow all HTTP
    methods. The wildcard stands for the methods DELETE, GET, HEAD,
    OPTIONS, PATCH, POST and PUT only: TRACE is not allowed, and a
    preflight request for it from http://localhost:3000 is refused with
    status 400. *)
Lemma trace_method_is_not_allowed :
  ~ (forall m : string, is_allowed_method cors m = true)
  /\ is_allowed_method cors "TRACE" = false
  /\ preflight_status cors "http://localhost:3000" "TRACE" [] = 400.
Proof.
  split; [|split; reflexivity].
  intros Hall. specialize (Hall "TRACE"). discriminate Hall.
Qed.

(** C7, amended. The cross-origin policy is installed with the one
    origin http://localhost:3000 and the wildcard for methods and for
    headers. It allows that origin and no other (http://evil.example is
    not allowed, and a preflight request from it is refused with status
    400); it allows exactly the methods the wildcard stands for (DELETE,
    GET, HEAD, OPTIONS, PATCH, POST and PUT; not TRACE nor CONNECT), every
    header, and credentials, so that a preflight request from
    http://localhost:3000 is accepted with status 200 exactly when it asks
    for one of those methods. *)
Theorem cors_single_origin_standard_methods :
  allow_origins cors = ["http://localhost:3000"]
  /\ allow_methods cors = ["*"]
  /\ allow_headers cors = ["*"]
  /\ (forall origin : string,
     is_allowed_origin cors origin = true <->
     origin = "http://localhost:3000")
  /\ is_allowed_origin cors "http://evil.example" = false
  /\ (forall m : string,
        is_allowed_method cors m = true <->
        In m ["DELETE"; "GET"; "HEAD"; "OPTIONS"; "PATCH"; "POST"; "PUT"])
  /\ is_allowed_method cors "TRACE" = false
  /\ is_allowed_method cors "CONNECT" = false
  /\ (forall header : string, is_allowed_header cors header = true)
  /\ allow_credentials cors = true
  /\ (forall (m : string) (headers : list string),
        preflight_status cors "http://evil.example" m headers = 400)
  /\ (forall (m : string) (headers : list string),
        preflight_status cors "http://localhost:3000" m headers = 200 <->
        In m ["DELETE"; "GET"; "HEAD"; "OPTIONS"; "PATCH"; "POST"; "PUT"]).
Proof.
  assert (Hm : forall m, is_allowed_method cors m = true <-> In m ALL_METHODS).
  { intros m. unfold is_allowed_method. simpl contains at 1.
    cbv iota. apply contains_In. }
  assert (Hh : forall header, is_allowed_header cors header = true).
  { intros header. reflexivity. }
  assert (Hhs : forall headers,
            forallb (is_allowed_header cors) headers = true).
  { intros headers. apply forallb_forall. intros h _. apply Hh. }
  split; [reflexivity|]. split; [reflexivity|]. split; [reflexivity|].
  split.
  { intros origin. unfold is_allowed_origin.
    rewrite orb_true_iff, !contains_In. simpl.
    split; [intros [[E|[]]|[E|[]]]; [discriminate E | now subst] |].
    intros ->. right. now left. }
  split; [reflexivity|]. split; [exact Hm|].
  split; [reflexivity|]. split; [reflexivity|]. split; [exact Hh|].
  split; [reflexivity|]. split; [reflexivity|].
  intros m headers. unfold preflight_status.
  rewrite Hhs, andb_true_r.
  change (is_allowed_origin cors "http://localhost:3000") with true.
  rewrite andb_true_l, <- (Hm m).
  destruct (is_allowed_method cors m); split; intros H;
    reflexivity || discriminate H.
Qed.

(** ** Logging bootstrap *)

Lemma log_to_logger (lvl : Z) (msg : string) (w : World) :
  logging.DEBUG <= lvl ->
  let w' := snd (log logger lvl msg None w) in
  stdout w' = stdout w
  /\ stderr w' = stderr w ++ when_ (logging.WARNING <=? lvl) (line lvl msg)
  /\ contents "log.txt" w'
     = contents "log.txt" w ++ when_ (logging.INFO <=? lvl) (line lvl msg)
  /\ contents "debug_log.txt" w'
     = contents "debug_log.txt" w ++ [line lvl msg]
  /\ (forall f, f <> "log.txt" -> f <> "debug_log.txt" ->
        files w' !! f = files w !! f).
Proof.
  intros Hlvl. unfold log, logger, contents, when_, line.
  cbn [logging.level logging.handlers logging.addHandler
       logging.Logger_setLevel logging.getLogger app].
  unfold logging.WARNING, logging.INFO, logging.DEBUG in *.
  assert (E10 : (10 <=? lvl) = true) by now apply Z.leb_le.
  rewrite E10.
  unfold callHandlers, handle, console_handler, file_handler,
    debug_file_handler.
  rewrite !io_seq.
  cbn [logging.handler_level logging.setFormatter logging.setLevel
       logging.new logging.target logging.formatter logging.levelno].
  unfold logging.WARNING, logging.INFO, logging.DEBUG. rewrite E10.
  destruct (30 <=? lvl) eqn:E30; destruct (20 <=? lvl) eqn:E20;
    cbn -[formatter]; rewrite ?app_nil_r;
    repeat split;
    repeat (rewrite lookup_insert_eq || rewrite lookup_insert_ne by discriminate);
    try reflexivity;
    intros f Hf1 Hf2;
    rewrite ?lookup_insert_ne by congruence; reflexivity.
Qed.

Lemma log_below_logger_level (lvl : Z) (msg : string) (w : World) :
  lvl < logging.DEBUG -> snd (log logger lvl msg None w) = w.
Proof.
  intros Hlvl. unfold log, logger.
  cbn [logging.level logging.addHandler logging.Logger_setLevel].
  unfold logging.DEBUG in *.
  destruct (Z.leb_spec 10 lvl); [lia | reflexivity].
Qed.

(** What the process holds once the two log files have been opened and
    the console line printed. *)
Lemma files_opened (w : World) :
  let w' := snd ((open "log.txt" "w" ;; open "debug_log.txt" "w" ;;
                  print "LOGGING STARTED") w) in
  stdout w' = stdout w ++ ["LOGGING STARTED"]
  /\ stderr w' = stderr w
  /\ contents "log.txt" w' = []
  /\ contents "debug_log.txt" w' = []
  /\ (forall f, f <> "log.txt" -> f <> "debug_log.txt" ->
        files w' !! f = files w !! f).
Proof.
  rewrite !io_seq. unfold contents. cbn.
  repeat split;
    repeat (rewrite lookup_insert_eq || rewrite lookup_insert_ne by discriminate);
    try reflexivity.
  intros f Hf1 Hf2. now rewrite !lookup_insert_ne by congruence.
Qed.

(** C8. The logger has exactly three sinks: the console at WARNING and
    above, the file log.txt at INFO and above and the file debug_log.txt
    at DEBUG and above, both files opened in truncating mode; a record is
    written to exactly the sinks whose level it reaches. Right after the
    setup, whatever the two files held before, "LOGGING STARTED" has been
    printed once on the console ([stdout]) and logged once at INFO, which
    is the only line of log.txt and of debug_log.txt; the console sink
    ([stderr]) has not written it, and no other file is touched. *)
Theorem logging_three_sinks_and_first_lines :
  logging.handlers logger = [console_handler; file_handler; debug_file_handler]
  /\ (logging.target console_handler = logging.StreamHandler
      /\ logging.handler_level console_handler = logging.WARNING)
  /\ (logging.target file_handler = logging.FileHandler "log.txt" "w"
      /\ logging.handler_level file_handler = logging.INFO)
  /\ (logging.target debug_file_handler
      = logging.FileHandler "debug_log.txt" "w"
      /\ logging.handler_level debug_file_handler = logging.DEBUG)
  /\ (forall (lvl : Z) (msg : string) (w : World),
        logging.DEBUG <= lvl ->
        let w' := snd (log logger lvl msg None w) in
        stderr w' = stderr w ++ when_ (logging.WARNING <=? lvl) (line lvl msg)
        /\ contents "log.txt" w'
           = contents "log.txt" w
             ++ when_ (logging.INFO <=? lvl) (line lvl msg)
        /\ contents "debug_log.txt" w'
           = contents "debug_log.txt" w ++ [line lvl msg])
  /\ (forall (lvl : Z) (msg : string) (w : World),
        lvl < logging.DEBUG -> snd (log logger lvl msg None w) = w)
  /\ (forall w : World,
        let w' := snd (logging_setup w) in
        stdout w' = stdout w ++ ["LOGGING STARTED"]
        /\ stderr w' = stderr w
        /\ contents "log.txt" w' = [line logging.INFO "LOGGING STARTED"]
        /\ contents "debug_log.txt" w'
           = [line logging.INFO "LOGGING STARTED"]
        /\ (forall f, f <> "log.txt" -> f <> "debug_log.txt" ->
              files w' !! f = files w !! f)).
Proof.
  split; [reflexivity|].
  split; [split; reflexivity|].
  split; [split; reflexivity|].
  split; [split; reflexivity|].
  split; [|split; [exact log_below_logger_level|]].
  - intros lvl msg w Hlvl.
    destruct (log_to_logger lvl msg w Hlvl) as (_ & Herr & Hlog & Hdbg & _).
    cbv zeta. auto.
  - intros w. cbv zeta. unfold logging_setup.
    change ((open "log.txt" "w" ;; open "debug_log.txt" "w" ;;
             print "LOGGING STARTED" ;; info logger "LOGGING STARTED" None) w)
      with (let (_, w1) := open "log.txt" "w" w in
            let (_, w2) := open "debug_log.txt" "w" w1 in
            let (_, w3) := print "LOGGING STARTED" w2 in
            info logger "LOGGING STARTED" None w3).
    destruct (files_opened w) as (Hout & Herr & Hlog & Hdbg & Hother).
    cbv zeta in Hout, Herr, Hlog, Hdbg, Hother.
    rewrite !io_seq in Hout, Herr, Hlog, Hdbg, Hother.
    set (w3 := snd (print "LOGGING STARTED"
                      (snd (open "debug_log.txt" "w"
                              (snd (open "log.txt" "w" w)))))) in *.
    change (let (_, w1) := open "log.txt" "w" w in
            let (_, w2) := open "debug_log.txt" "w" w1 in
            let (_, w3) := print "LOGGING STARTED" w2 in
            info logger "LOGGING STARTED" None w3)
      with (info logger "LOGGING STARTED" None w3).
    unfold info.
    destruct (log_to_logger logging.INFO "LOGGING STARTED" w3)
      as (Hout' & Herr' & Hlog' & Hdbg' & Hother');
      [unfold logging.DEBUG, logging.INFO; lia|].
    cbv zeta in Hout', Herr', Hlog', Hdbg', Hother'.
    rewrite Hout', Herr', Hlog', Hdbg', Hout, Herr, Hlog, Hdbg.
    repeat split; try apply app_nil_r.
    intros f Hf1 Hf2. rewrite Hother' by assumption. now apply Hother.
Qed.

(* ===================================================================== *)
(** * Further properties of the schema library                           *)
(* ===================================================================== *)

Lemma nested_errors_nil {A : Type} (validate : A -> list ValidationError)
    (name : string) (v : A) :
  nested_errors validate name v = [] <-> validate v = [].
Proof. unfold nested_errors. apply under_nil. Qed.

Lemma heading_ok (n : Z) :
  number_size_validator TelemetryDict.heading_field n = None <->
  int_in_co 0 360 n.
Proof.
  rewrite number_size_validator_None.
  unfold bound_ok, TelemetryDict.heading_field, int_in_co. simpl.
  rewrite Z.leb_le, Z.ltb_lt. tauto.
Qed.

Lemma degrees_int_ok (n : Z) :
  number_size_validator OrientationDict.roll_field n = None <->
  int_in_oc (-180) 180 n.
Proof.
  rewrite number_size_validator_None.
  unfold bound_ok, OrientationDict.roll_field, int_in_oc. simpl.
  rewrite Z.leb_le, Z.ltb_lt. tauto.
Qed.

Lemma float_non_negative_ok (v : pyfloat) :
  number_size_validator QuickDict.ground_speed_field v = None <->
  float_at_least 0 v.
Proof.
  rewrite number_size_validator_None.
  unfold bound_ok, QuickDict.ground_speed_field.
  cbn [Field.gt Field.ge Field.lt Field.le].
  rewrite float_ge_iff. tauto.
Qed.

Lemma TelemetryDict_valid (d : TelemetryDict.t) :
  TelemetryDict.validate d = [] <->
  float_in_oc (-180) 180 (TelemetryDict.latitude d) /\
  float_in_oc (-180) 180 (TelemetryDict.longitude d) /\
  int_in_co 0 360 (TelemetryDict.heading d).
Proof.
  unfold TelemetryDict.validate.
  rewrite app_nil, LatLonAltDict_validate_base, LatLonDict_valid,
    field_errors_nil, heading_ok.
  simpl. tauto.
Qed.

(** X1. A TelemetryReading ([TelemetryDict]) is constructed exactly when
    latitude and longitude lie in (-180, 180] and the heading in [0, 360),
    whatever the altitude; heading 360 raises a validation error (not less
    than 360) at the heading, and a negative heading raises one (not at
    least 0) there. *)
Theorem TelemetryReading_heading_range :
  (forall (lat lon : pyfloat) (alt heading : Z),
     succeeds (TelemetryDict.init lat lon alt heading) <->
     float_in_oc (-180) 180 lat /\ float_in_oc (-180) 180 lon /\
     int_in_co 0 360 heading)
  /\ (forall (lat lon : pyfloat) (alt : Z),
        raises (TelemetryDict.init lat lon alt 360)
          ([Key "heading"], NumberNotLtError 360))
  /\ (forall (lat lon : pyfloat) (alt heading : Z),
        heading < 0 ->
        raises (TelemetryDict.init lat lon alt heading)
          ([Key "heading"], NumberNotGeError 0)).
Proof.
  split; [|split].
  - intros lat lon alt hd. unfold TelemetryDict.init.
    rewrite construct_succeeds. apply TelemetryDict_valid.
  - intros lat lon alt. unfold TelemetryDict.init.
    rewrite construct_raises. unfold TelemetryDict.validate.
    apply in_or_app. right. apply field_errors_In.
    eexists. split; reflexivity.
  - intros lat lon alt hd Hneg. unfold TelemetryDict.init.
    rewrite construct_raises. unfold TelemetryDict.validate.
    apply in_or_app. right. apply field_errors_In.
    eexists. split; [|reflexivity].
    unfold number_size_validator. simpl.
    destruct (Z.leb_spec 0 hd); [lia | reflexivity].
Qed.

Lemma ObstacleDict_valid (d : ObstacleDict.t) :
  ObstacleDict.validate d = [] <->
  float_in_oc (-180) 180 (ObstacleDict.latitude d) /\
  float_in_oc (-180) 180 (ObstacleDict.longitude d) /\
  non_negative (ObstacleDict.radius d) /\
  non_negative (ObstacleDict.height d).
Proof.
  unfold ObstacleDict.validate.
  rewrite !app_nil, LatLonDict_valid, !field_errors_nil.
  change ObstacleDict.radius_field with FlyZoneDict.altitudeMin_field.
  change ObstacleDict.height_field with FlyZoneDict.altitudeMin_field.
  rewrite !non_negative_ok. simpl. tauto.
Qed.

(** X2. An Obstacle ([ObstacleDict]) is constructed exactly when its
    position lies in (-180, 180] on both axes and its radius and its
    height are both non-negative; a negative radius or height raises a
    validation error (not at least 0) at that field. *)
Theorem Obstacle_radius_height_non_negative :
  (forall (lat lon : pyfloat) (radius height : Z),
     succeeds (ObstacleDict.init lat lon radius height) <->
     float_in_oc (-180) 180 lat /\ float_in_oc (-180) 180 lon /\
     non_negative radius /\ non_negative height)
  /\ (forall (lat lon : pyfloat) (radius height : Z),
        radius < 0 ->
        raises (ObstacleDict.init lat lon radius height)
          ([Key "radius"], NumberNotGeError 0))
  /\ (forall (lat lon : pyfloat) (radius height : Z),
        height < 0 ->
        raises (ObstacleDict.init lat lon radius height)
          ([Key "height"], NumberNotGeError 0)).
Proof.
  split; [|split].
  - intros lat lon radius height. unfold ObstacleDict.init.
    rewrite construct_succeeds. apply ObstacleDict_valid.
  - intros lat lon radius height Hneg. unfold ObstacleDict.init.
    rewrite construct_raises. unfold ObstacleDict.validate.
    apply in_or_app. right. apply in_or_app. left.
    apply field_errors_In. eexists. split; [|reflexivity].
    unfold number_size_validator. simpl.
    destruct (Z.leb_spec 0 radius); [lia | reflexivity].
  - intros lat lon radius height Hneg. unfold ObstacleDict.init.
    rewrite construct_raises. unfold ObstacleDict.validate.
    apply in_or_app. right. apply in_or_app. right.
    apply field_errors_In. eexists. split; [|reflexivity].
    unfold number_size_validator. simpl.
    destruct (Z.leb_spec 0 height); [lia | reflexivity].
Qed.

Lemma OrientationDict_valid (d : OrientationDict.t) :
  OrientationDict.validate d = [] <->
  int_in_co 0 360 (OrientationDict.yaw d) /\
  int_in_oc (-180) 180 (OrientationDict.roll d) /\
  int_in_oc (-180) 180 (OrientationDict.pitch d).
Proof.
  unfold OrientationDict.validate.
  rewrite !app_nil, !field_errors_nil.
  change OrientationDict.yaw_field with TelemetryDict.heading_field.
  change OrientationDict.pitch_field with OrientationDict.roll_field.
  now rewrite heading_ok, !degrees_int_ok.
Qed.

(** X3. An Orientation ([OrientationDict]) is constructed exactly when
    the yaw lies in [0, 360) and the roll and the pitch in (-180, 180]:
    on integers, yaw 0 to 359 and roll and pitch -179 to 180. A
    construction that fails reports one error for each field out of
    range, so at most three. *)
Theorem Orientation_integer_degrees :
  (forall yaw roll pitch : Z,
     succeeds (OrientationDict.init yaw roll pitch) <->
     0 <= yaw <= 359 /\ -179 <= roll <= 180 /\ -179 <= pitch <= 180)
  /\ (forall yaw roll pitch : Z,
        (length (OrientationDict.validate
                   (OrientationDict.mk yaw roll pitch)) <= 3)%nat)
  /\ OrientationDict.init 360 (-180) 181
     = inl [([Key "yaw"], NumberNotLtError 360);
            ([Key "roll"], NumberNotGtError (-180));
            ([Key "pitch"], NumberNotLeError 180)].
Proof.
  split; [|split].
  - intros yaw roll pitch. unfold OrientationDict.init.
    rewrite construct_succeeds, OrientationDict_valid.
    unfold int_in_co, int_in_oc. simpl. lia.
  - intros yaw roll pitch. unfold OrientationDict.validate, field_errors.
    rewrite !length_app.
    repeat match goal with
           | |- context [number_size_validator ?f ?v] =>
               destruct (number_size_validator f v)
           end; simpl; lia.
  - reflexivity.
Qed.

Lemma QuickDict_valid (d : QuickDict.t) :
  QuickDict.validate d = [] <->
  float_at_least 0 (QuickDict.altitude d) /\
  OrientationDict.validate (QuickDict.orientation d) = [] /\
  float_at_least 0 (QuickDict.ground_speed d) /\
  float_at_least 0 (QuickDict.air_speed d) /\
  float_at_least 0 (QuickDict.dist_to_wp d) /\
  float_in_co 0 20 (QuickDict.voltage d) /\
  int_in_co 0 101 (QuickDict.throttle d) /\
  float_in_oc (-180) 180 (QuickDict.lat d) /\
  float_in_oc (-180) 180 (QuickDict.lon d).
Proof.
  unfold QuickDict.validate.
  rewrite !app_nil, nested_errors_nil, !field_errors_nil.
  change QuickDict.altitude_field with QuickDict.ground_speed_field.
  change QuickDict.air_speed_field with QuickDict.ground_speed_field.
  change QuickDict.dist_to_wp_field with QuickDict.ground_speed_field.
  change QuickDict.lat_field with LatLonDict.latitude_field.
  change QuickDict.lon_field with LatLonDict.latitude_field.
  rewrite !float_non_negative_ok, voltage_ok, throttle_ok, !degrees_float_ok.
  unfold int_in_co. intuition lia.
Qed.

Lemma construct_inr_iff {A : Type} (validate : A -> list ValidationError)
    (v : A) :
  construct validate v = inr v <-> validate v = [].
Proof.
  unfold construct. destruct (validate v); split; congruence.
Qed.

(** C5. In every QuickStatus ([QuickDict]) construction the voltage field
    is accepted exactly when 0 <= voltage < 20 and the throttle field
    exactly when 0 <= throttle <= 100: no error is reported at the field
    exactly then, and when the other fields are within their bounds the
    construction returns the QuickStatus exactly then. In particular,
    with the other fields and the voltage within bounds, throttle 0 and
    throttle 100 give the QuickStatus (as the example status of the
    schema does with either throttle), and voltage 20 raises a validation
    error (not less than 20) at the voltage field and nothing is
    constructed. *)
Theorem QuickStatus_voltage_throttle_range :
  (forall d : QuickDict.t,
     accepted [Key "voltage"] (QuickDict.validate d) <->
     float_in_co 0 20 (QuickDict.voltage d))
  /\ (forall d : QuickDict.t,
        accepted [Key "throttle"] (QuickDict.validate d) <->
        0 <= QuickDict.throttle d <= 100)
  /\ (forall d : QuickDict.t,
        quick_rest_in_range d ->
        (QuickDict.init d = inr d <->
         float_in_co 0 20 (QuickDict.voltage d) /\
         0 <= QuickDict.throttle d <= 100))
  /\ (forall d : QuickDict.t,
        quick_rest_in_range d ->
        float_in_co 0 20 (QuickDict.voltage d) ->
        QuickDict.throttle d = 0 \/ QuickDict.throttle d = 100 ->
        QuickDict.init d = inr d)
  /\ (quick_rest_in_range example_quick
      /\ QuickDict.init (with_throttle 0 example_quick)
         = inr (with_throttle 0 example_quick)
      /\ QuickDict.init (with_throttle 100 example_quick)
         = inr (with_throttle 100 example_quick))
  /\ (forall d : QuickDict.t,
        float_is 20 (QuickDict.voltage d) ->
        raises (QuickDict.init d) ([Key "voltage"], NumberNotLtError 20)
        /\ forall q : QuickDict.t, QuickDict.init d <> inr q).
Proof.
  assert (Hv : forall d, accepted [Key "voltage"] (QuickDict.validate d) <->
                         float_in_co 0 20 (QuickDict.voltage d)).
  { intros d. unfold accepted.
    now rewrite quick_errors_at_voltage, field_errors_nil, voltage_ok. }
  assert (Ht : forall d, accepted [Key "throttle"] (QuickDict.validate d) <->
                         0 <= QuickDict.throttle d <= 100).
  { intros d. unfold accepted.
    now rewrite quick_errors_at_throttle, field_errors_nil, throttle_ok. }
  assert (Hinit : forall d, quick_rest_in_range d ->
            (QuickDict.init d = inr d <->
             float_in_co 0 20 (QuickDict.voltage d) /\
             0 <= QuickDict.throttle d <= 100)).
  { intros d Hrest. unfold QuickDict.init.
    rewrite construct_inr_iff, QuickDict_valid, OrientationDict_valid.
    unfold quick_rest_in_range in Hrest. unfold int_in_co at 2.
    intuition lia. }
  split; [exact Hv | split; [exact Ht | split; [exact Hinit|]]].
  split; [|split].
  - intros d Hrest Hvolt Hthr. apply (Hinit d Hrest).
    split; [exact Hvolt | destruct Hthr as [-> | ->]; lia].
  - split; [|split; reflexivity].
    unfold quick_rest_in_range, example_quick, int_in_co, int_in_oc,
      float_in_oc, example_latitude, example_longitude. simpl.
    repeat split; try lia; try discriminate; eexists; (split; [reflexivity|]);
      split; reflexivity || discriminate.
  - intros d H20.
    assert (Hraise : raises (QuickDict.init d)
                       ([Key "voltage"], NumberNotLtError 20)).
    { unfold QuickDict.init. rewrite construct_raises.
      unfold QuickDict.validate.
      do 5 (apply in_or_app; right). apply in_or_app; left.
      apply field_errors_In. eexists.
      split; [apply voltage_twenty; exact H20 | reflexivity]. }
    split; [exact Hraise|].
    intros q Hq. rewrite Hq in Hraise. exact Hraise.
Qed.

(** X4. A QuickStatus ([QuickDict]) is constructed exactly when all of
    its fields are within their declared bounds: altitude, ground speed,
    air speed and distance to the waypoint at least 0, voltage in [0, 20),
    throttle from 0 to 100, latitude and longitude in (-180, 180], and an
    orientation with yaw in [0, 360) and roll and pitch in (-180, 180].
    An orientation out of range is reported under the orientation
    field. *)
Theorem QuickStatus_constructed_iff_all_in_range :
  (forall d : QuickDict.t,
     succeeds (QuickDict.init d) <->
     float_at_least 0 (QuickDict.altitude d) /\
     float_at_least 0 (QuickDict.ground_speed d) /\
     float_at_least 0 (QuickDict.air_speed d) /\
     float_at_least 0 (QuickDict.dist_to_wp d) /\
     float_in_co 0 20 (QuickDict.voltage d) /\
     0 <= QuickDict.throttle d <= 100 /\
     float_in_oc (-180) 180 (QuickDict.lat d) /\
     float_in_oc (-180) 180 (QuickDict.lon d) /\
     int_in_co 0 360 (OrientationDict.yaw (QuickDict.orientation d)) /\
     int_in_oc (-180) 180 (OrientationDict.roll (QuickDict.orientation d)) /\
     int_in_oc (-180) 180 (OrientationDict.pitch (QuickDict.orientation d)))
  /\ (forall (d : QuickDict.t) (l : Loc) (k : ErrorKind),
        In (l, k) (OrientationDict.validate (QuickDict.orientation d)) ->
        raises (QuickDict.init d) (Key "orientation" :: l, k)).
Proof.
  split.
  - intros d. unfold QuickDict.init.
    rewrite construct_succeeds, QuickDict_valid, OrientationDict_valid.
    unfold int_in_co. intuition lia.
  - intros d l k Hin. unfold QuickDict.init. rewrite construct_raises.
    unfold QuickDict.validate. apply in_or_app. right.
    apply in_or_app. left. unfold nested_errors, under.
    apply in_map_iff. now exists (l, k).
Qed.

Lemma MissionDict_valid (d : MissionDict.t) :
  MissionDict.validate d = [] <->
  LatLonDict.validate (MissionDict.lostCommsPos d) = [] /\
  all_valid FlyZoneDict.validate (MissionDict.flyZones d) /\
  all_valid LatLonAltDict.validate (MissionDict.waypoints d) /\
  all_valid LatLonDict.validate (MissionDict.searchGridPoints d) /\
  LatLonDict.validate (MissionDict.offAxisOdlcPos d) = [] /\
  LatLonDict.validate (MissionDict.emergentLastKnownPos d) = [] /\
  all_valid LatLonDict.validate (MissionDict.airDropBoundaryPoints d) /\
  LatLonDict.validate (MissionDict.airDropPos d) = [] /\
  LatLonDict.validate (MissionDict.ugvDrivePos d) = [] /\
  all_valid ObstacleDict.validate (MissionDict.stationaryObstacles d) /\
  LatLonDict.validate (MissionDict.mapCenterPos d) = [] /\
  non_negative (MissionDict.mapHeight d).
Proof.
  unfold MissionDict.validate, all_valid.
  rewrite !app_nil, !nested_errors_nil, !list_errors_nil, !field_errors_nil.
  change MissionDict.mapHeight_field with FlyZoneDict.altitudeMin_field.
  rewrite non_negative_ok.
  assert (Hid : number_size_validator MissionDict.id_field (MissionDict.id d)
                = None) by reflexivity.
  tauto.
Qed.

(** X5. A Mission ([MissionDict]) is constructed exactly when each of its
    six positions, each point of its search grid and of its air-drop
    boundary, each fly zone, each waypoint and each obstacle is itself
    constructed without error and the map height is non-negative; the id
    is any integer. In particular a mission with no fly zone, no waypoint,
    no search-grid or boundary point and no obstacle is constructed when
    its six positions are valid and its map height non-negative. *)
Theorem Mission_constructed_iff_parts_valid :
  (forall d : MissionDict.t,
     succeeds (MissionDict.init d) <->
     succeeds (construct LatLonDict.validate (MissionDict.lostCommsPos d)) /\
     Forall (fun z => succeeds (construct FlyZoneDict.validate z))
       (MissionDict.flyZones d) /\
     Forall (fun p => succeeds (construct LatLonAltDict.validate p))
       (MissionDict.waypoints d) /\
     Forall (fun p => succeeds (construct LatLonDict.validate p))
       (MissionDict.searchGridPoints d) /\
     succeeds (construct LatLonDict.validate (MissionDict.offAxisOdlcPos d)) /\
     succeeds (construct LatLonDict.validate
                 (MissionDict.emergentLastKnownPos d)) /\
     Forall (fun p => succeeds (construct LatLonDict.validate p))
       (MissionDict.airDropBoundaryPoints d) /\
     succeeds (construct LatLonDict.validate (MissionDict.airDropPos d)) /\
     succeeds (construct LatLonDict.validate (MissionDict.ugvDrivePos d)) /\
     Forall (fun o => succeeds (construct ObstacleDict.validate o))
       (MissionDict.stationaryObstacles d) /\
     succeeds (construct LatLonDict.validate (MissionDict.mapCenterPos d)) /\
     0 <= MissionDict.mapHeight d)
  /\ (forall (id mapHeight : Z) (p : LatLonDict.t),
        LatLonDict.validate p = [] -> 0 <= mapHeight ->
        succeeds (MissionDict.init
                    (MissionDict.mk id p [] [] [] p p [] p p [] p mapHeight))).
Proof.
  split.
  - intros d. unfold MissionDict.init.
    rewrite !construct_succeeds, MissionDict_valid.
    unfold all_valid, non_negative. rewrite !Forall_forall.
    repeat setoid_rewrite construct_succeeds. tauto.
  - intros id mapHeight p Hp Hh. unfold MissionDict.init.
    rewrite construct_succeeds, MissionDict_valid.
    unfold all_valid, non_negative. simpl. repeat split; auto.
Qed.

(** ** Writing a model as plain data and reading it back *)

Lemma indexed_items_read_back {A : Type} (g : nat -> pyval -> Decoded A)
    (enc : A -> pyval) (l : list A) :
  (forall i x, g i (enc x) = inr x) ->
  foldr (fun d acc => inr cons <*> d <*> acc) (inr [])
    (imap g (map enc l)) = inr l.
Proof.
  revert g. induction l as [|x l IH]; intros g Hg; [reflexivity|].
  cbn [map imap foldr]. rewrite Hg, (IH (g ∘ S)); [reflexivity|].
  intros i y. apply Hg.
Qed.

Lemma list_validator_map {A : Type} (item : pyval -> Decoded A)
    (enc : A -> pyval) (l : list A) :
  (forall x, item (enc x) = inr x) ->
  list_validator item (PList (map enc l)) = inr l.
Proof.
  intros Hitem. unfold list_validator.
  apply indexed_items_read_back. intros i x. now rewrite Hitem.
Qed.

(** The entries of a dict written field by field, looked up by name. *)
Ltac lookup_fields :=
  rewrite ?list_to_map_cons, ?list_to_map_nil;
  repeat (rewrite lookup_insert_eq || rewrite lookup_insert_ne by discriminate).

Ltac read_back :=
  unfold model, required;
  cbn [dict_validator];
  lookup_fields;
  cbn [located float_validator int_validator dict_validator ap].

Lemma LatLonDict_decode_dict (d : LatLonDict.t) :
  LatLonDict.decode (LatLonDict.dict d) = inr d.
Proof.
  unfold LatLonDict.decode, LatLonDict.dict. read_back. now destruct d.
Qed.

Lemma LatLonAltDict_decode_dict (d : LatLonAltDict.t) :
  LatLonAltDict.decode (LatLonAltDict.dict d) = inr d.
Proof.
  unfold LatLonAltDict.decode, LatLonAltDict.dict. read_back. now destruct d.
Qed.

Lemma TelemetryDict_decode_dict (d : TelemetryDict.t) :
  TelemetryDict.decode (TelemetryDict.dict d) = inr d.
Proof.
  unfold TelemetryDict.decode, TelemetryDict.dict. read_back. now destruct d.
Qed.

Lemma ObstacleDict_decode_dict (d : ObstacleDict.t) :
  ObstacleDict.decode (ObstacleDict.dict d) = inr d.
Proof.
  unfold ObstacleDict.decode, ObstacleDict.dict. read_back. now destruct d.
Qed.

Lemma OrientationDict_decode_dict (d : OrientationDict.t) :
  OrientationDict.decode (OrientationDict.dict d) = inr d.
Proof.
  unfold OrientationDict.decode, OrientationDict.dict. read_back.
  now destruct d.
Qed.

Lemma FlyZoneDict_decode_dict (d : FlyZoneDict.t) :
  FlyZoneDict.decode (FlyZoneDict.dict d) = inr d.
Proof.
  unfold FlyZoneDict.decode, FlyZoneDict.dict. read_back.
  rewrite (list_validator_map _ _ _ LatLonDict_decode_dict).
  cbn [located ap]. now destruct d.
Qed.

Lemma QuickDict_decode_dict (d : QuickDict.t) :
  QuickDict.decode (QuickDict.dict d) = inr d.
Proof.
  unfold QuickDict.decode, QuickDict.dict. read_back.
  rewrite OrientationDict_decode_dict.
  cbn [located ap]. now destruct d.
Qed.

Lemma MissionDict_decode_dict (d : MissionDict.t) :
  MissionDict.decode (MissionDict.dict d) = inr d.
Proof.
  unfold MissionDict.decode, MissionDict.dict. read_back.
  rewrite !LatLonDict_decode_dict,
    !(list_validator_map _ _ _ LatLonDict_decode_dict),
    (list_validator_map _ _ _ LatLonAltDict_decode_dict),
    (list_validator_map _ _ _ FlyZoneDict_decode_dict),
    (list_validator_map _ _ _ ObstacleDict_decode_dict).
  cbn [located ap]. now destruct d.
Qed.

Lemma parse_decoded {A : Type} (decode : pyval -> Decoded A)
    (validate : A -> list ValidationError) (v : pyval) (a : A) :
  decode v = inr a -> parse decode validate v = construct validate a.
Proof. unfold parse. now intros ->. Qed.

(** X6. Each data model written as plain data ([dict]) and read back
    ([parse_obj]) gives what constructing it from its fields gives: the
    same model when its fields are within bounds, and the same validation
    errors when they are not. This holds for the positions, the
    telemetry reading, the obstacle, the orientation, the fly zone with
    its list of points, the vehicle status and the mission with all its
    lists. *)
Theorem model_dict_parse_obj_round_trip :
  (forall d, LatLonDict.parse_obj (LatLonDict.dict d)
             = construct LatLonDict.validate d)
  /\ (forall d, LatLonAltDict.parse_obj (LatLonAltDict.dict d)
                = construct LatLonAltDict.validate d)
  /\ (forall d, TelemetryDict.parse_obj (TelemetryDict.dict d)
                = construct TelemetryDict.validate d)
  /\ (forall d, ObstacleDict.parse_obj (ObstacleDict.dict d)
                = construct ObstacleDict.validate d)
  /\ (forall d, OrientationDict.parse_obj (OrientationDict.dict d)
                = construct OrientationDict.validate d)
  /\ (forall d, FlyZoneDict.parse_obj (FlyZoneDict.dict d)
                = construct FlyZoneDict.validate d)
  /\ (forall d, QuickDict.parse_obj (QuickDict.dict d)
                = construct QuickDict.validate d)
  /\ (forall d, MissionDict.parse_obj (MissionDict.dict d)
                = construct MissionDict.validate d).
Proof.
  repeat split; intros d; apply parse_decoded.
  - apply LatLonDict_decode_dict.
  - apply LatLonAltDict_decode_dict.
  - apply TelemetryDict_decode_dict.
  - apply ObstacleDict_decode_dict.
  - apply OrientationDict_decode_dict.
  - apply FlyZoneDict_decode_dict.
  - apply QuickDict_decode_dict.
  - apply MissionDict_decode_dict.
Qed.

Lemma GeneralOut_decode_dict (d : GeneralOut.t) :
  GeneralOut.decode (GeneralOut.dict d) = inr d.
Proof.
  unfold GeneralOut.decode, GeneralOut.dict. read_back. now destruct d.
Qed.

Lemma MissionOut_decode_dict (d : MissionOut.t) :
  MissionOut.decode (MissionOut.dict d) = inr d.
Proof.
  unfold MissionOut.decode, MissionOut.dict. read_back.
  rewrite MissionDict_decode_dict. cbn [located ap]. now destruct d.
Qed.

Lemma TelemetryOut_decode_dict (d : TelemetryOut.t) :
  TelemetryOut.decode (TelemetryOut.dict d) = inr d.
Proof.
  unfold TelemetryOut.decode, TelemetryOut.dict. read_back.
  rewrite TelemetryDict_decode_dict. cbn [located ap]. now destruct d.
Qed.

Lemma QuickOut_decode_dict (d : QuickOut.t) :
  QuickOut.decode (QuickOut.dict d) = inr d.
Proof.
  unfold QuickOut.decode, QuickOut.dict. read_back.
  rewrite QuickDict_decode_dict. cbn [located ap]. now destruct d.
Qed.

(** What a response model sends for an envelope written as plain data:
    the same plain data when the payload is valid. *)
Lemma response_field_of_dict {A : Type} (decode : pyval -> Decoded A)
    (validate : A -> list ValidationError) (dict : A -> pyval) (m : A) :
  decode (dict m) = inr m ->
  response_field (parse decode validate) dict (dict m)
  = match validate m with
    | [] => inr (dict m)
    | errs => inl errs
    end.
Proof.
  intros Hread. unfold response_field.
  rewrite (parse_decoded decode validate (dict m) m Hread).
  unfold construct. now destruct (validate m).
Qed.

(** X7. Each response envelope written as plain data and read back gives
    the envelope again when its payload is within bounds, and otherwise
    the validation errors of the payload, each located under "result".
    An envelope of the general kind, whose payload is any mapping, is
    always read back. *)
Theorem envelope_dict_parse_obj_round_trip :
  (forall d, GeneralOut.parse_obj (GeneralOut.dict d) = inr d)
  /\ (forall d, MissionOut.parse_obj (MissionOut.dict d)
                = construct MissionOut.validate d)
  /\ (forall d, TelemetryOut.parse_obj (TelemetryOut.dict d)
                = construct TelemetryOut.validate d)
  /\ (forall d, QuickOut.parse_obj (QuickOut.dict d)
                = construct QuickOut.validate d)
  /\ (forall (d : TelemetryOut.t) (l : Loc) (k : ErrorKind),
        In (l, k) (TelemetryDict.validate (TelemetryOut.result d)) <->
        raises (TelemetryOut.parse_obj (TelemetryOut.dict d))
          (Key "result" :: l, k)).
Proof.
  split; [|split; [|split; [|split]]].
  - intros d. unfold GeneralOut.parse_obj.
    now rewrite (parse_decoded _ _ _ d (GeneralOut_decode_dict d)).
  - intros d. apply parse_decoded, MissionOut_decode_dict.
  - intros d. apply parse_decoded, TelemetryOut_decode_dict.
  - intros d. apply parse_decoded, QuickOut_decode_dict.
  - intros d l k. unfold TelemetryOut.parse_obj.
    rewrite (parse_decoded _ _ _ d (TelemetryOut_decode_dict d)).
    rewrite construct_raises.
    unfold TelemetryOut.validate, nested_errors, under.
    rewrite in_map_iff. split.
    + intros Hin. now exists (l, k).
    + intros ([l' k'] & [= <- <-] & Hin). exact Hin.
Qed.

(** ** Required fields *)

Lemma ap_raises_l {A B : Type} (f : Decoded (A -> B)) (x : Decoded A) e :
  raises f e -> raises (f <*> x) e.
Proof.
  destruct f as [e1|g], x as [e2|a]; simpl; try tauto.
  intros Hin. apply in_or_app. now left.
Qed.

Lemma ap_raises_r {A B : Type} (f : Decoded (A -> B)) (x : Decoded A) e :
  raises x e -> raises (f <*> x) e.
Proof.
  destruct f as [e1|g], x as [e2|a]; simpl; try tauto.
  intros Hin. apply in_or_app. now right.
Qed.

Lemma required_missing {A : Type} (o : gmap string pyval) (name : string)
    (type_ : pyval -> Decoded A) :
  o !! name = None ->
  raises (required o name type_) ([Key name], MissingError).
Proof. intros Hnone. unfold required. rewrite Hnone. simpl. now left. Qed.

Lemma parse_raises {A : Type} (decode : pyval -> Decoded A)
    (validate : A -> list ValidationError) (v : pyval) e :
  raises (decode v) e -> raises (parse decode validate v) e.
Proof. unfold parse. now destruct (decode v). Qed.

(** X8. Every field of a TelemetryReading is required, the inherited
    ones included: read from a mapping that lacks latitude, longitude,
    altitude or heading, and whose entries for the other fields are of the
    declared types, it raises a validation error (missing) at that
    field. *)
Theorem TelemetryReading_fields_required :
  forall (o : gmap string pyval) (name : string),
    In name ["latitude"; "longitude"; "altitude"; "heading"] ->
    o !! name = None ->
    telemetry_entries_typed o ->
    raises (TelemetryDict.parse_obj (PDict o)) ([Key name], MissingError).
Proof.
  intros o name Hname Hnone _.
  unfold TelemetryDict.parse_obj. apply parse_raises.
  unfold TelemetryDict.decode, model. cbn [dict_validator].
  simpl in Hname.
  destruct Hname as [<-|[<-|[<-|[<-|[]]]]].
  - do 3 apply ap_raises_l. apply ap_raises_r. now apply required_missing.
  - do 2 apply ap_raises_l. apply ap_raises_r. now apply required_missing.
  - apply ap_raises_l. apply ap_raises_r. now apply required_missing.
  - apply ap_raises_r. now apply required_missing.
Qed.

Lemma TelemetryReading_fields_required_witness :
  raises (TelemetryDict.parse_obj (PDict telemetry_without_altitude))
    ([Key "altitude"], MissingError).
Proof.
  apply (TelemetryReading_fields_required telemetry_without_altitude
           "altitude").
  - simpl. tauto.
  - reflexivity.
  - repeat split; intros v Hv; vm_compute in Hv;
      first [discriminate Hv | injection Hv as <-; eauto].
Defined.

(** ** The mission data categories *)

(** X9. The eight mission data categories ([MissionIn]) have pairwise
    distinct values, so a category is recovered from its value, and a
    string is the value of a category exactly when looking it up finds
    one; any other string, such as a value in upper case, finds none. *)
Theorem MissionIn_value_lookup :
  (forall m : MissionIn.t, MissionIn_of_value (MissionIn.value m) = Some m)
  /\ (forall m m' : MissionIn.t,
        MissionIn.value m = MissionIn.value m' -> m = m')
  /\ (forall (s : string) (m : MissionIn.t),
        MissionIn_of_value s = Some m <-> MissionIn.value m = s)
  /\ MissionIn_of_value "MISSION" = None
  /\ MissionIn_of_value "" = None.
Proof.
  assert (Hround : forall m, MissionIn_of_value (MissionIn.value m) = Some m)
    by (intros []; reflexivity).
  assert (Hfound : forall s m, MissionIn_of_value s = Some m ->
                               MissionIn.value m = s).
  { intros s m Hm. unfold MissionIn_of_value in Hm.
    apply find_some in Hm as [_ Hm]. now apply String.eqb_eq in Hm. }
  split; [exact Hround|split; [|split; [|split; reflexivity]]].
  - intros m m' E. pose proof (Hround m) as H1. rewrite E, Hround in H1.
    congruence.
  - intros s m. split; [apply Hfound|]. intros <-. apply Hround.
Qed.

(* ===================================================================== *)
(** * Further properties of the gateway                                  *)
(* ===================================================================== *)

(** ** The route table *)

Lemma find_mission {S : Type} (gs : GroundStation S) :
  find_route gs mission_request = Some (interop_mission_route gs).
Proof. reflexivity. Qed.

Lemma find_quick {S : Type} (gs : GroundStation S) :
  find_route gs quick_request = Some (quick_route gs).
Proof. reflexivity. Qed.


(** ** One dispatch call per request *)

(** X11. Whatever the request and whatever the Controller answers, each
    route makes exactly one call of the Controller's dispatch operation,
    with its own fixed command name (i_login, i_mission, i_telemetry,
    m_quick) and no argument, and leaves the Controller in the state that
    call left it in: after the request the list of calls is the list
    before it with that one call added. *)
Theorem one_dispatch_call_per_request :
  forall (S : Type) (gs : GroundStation S)
         (response_validation_error : list ValidationError -> PyException)
         (r : Request) (w : World) (s : S)
         (calls : list (string * list pyval)),
    snd (snd (serve response_validation_error
                (interop_login_route (recording gs)) r (w, (s, calls))))
    = (snd (call gs "i_login" [] s), calls ++ [("i_login", [])])
    /\ snd (snd (serve response_validation_error
                   (interop_mission_route (recording gs)) r (w, (s, calls))))
       = (snd (call gs "i_mission" [] s), calls ++ [("i_mission", [])])
    /\ snd (snd (serve response_validation_error
                   (interop_telemetry_route (recording gs)) r
                   (w, (s, calls))))
       = (snd (call gs "i_telemetry" [] s), calls ++ [("i_telemetry", [])])
    /\ snd (snd (serve response_validation_error
                   (quick_route (recording gs)) r (w, (s, calls))))
       = (snd (call gs "m_quick" [] s), calls ++ [("m_quick", [])]).
Proof.
  intros S gs rve r w s calls.
  repeat split; rewrite serve_controller_state;
    unfold interop_login_route, interop_mission_route,
      interop_telemetry_route, quick_route, interop_login, interop_mission,
      interop_telemetry, quick, recording;
    cbn [endpoint call fst snd];
    match goal with
    | |- context [call gs ?c [] s] => now destruct (call gs c [] s)
    end.
Qed.

(** ** The handler of an exception *)


Lemma unregistered_class_lookup (cls : string) :
  ~ In cls registered_classes -> exception_handlers !! cls = None.
Proof.
  intros Hnot. unfold exception_handlers. simpl in Hnot.
  rewrite !lookup_insert_ne by (intros <-; tauto).
  apply lookup_empty.
Qed.

Lemma lookup_handler_skips (before rest : list string) :
  Forall (fun c => ~ In c registered_classes) before ->
  lookup_handler exception_handlers (before ++ rest)
  = lookup_handler exception_handlers rest.
Proof.
  induction 1 as [|c before Hc _ IH]; [reflexivity|].
  cbn [app lookup_handler]. now rewrite (unregistered_class_lookup c Hc).
Qed.





Example own_subclass_of_invalid_request :
  status_of
    (exception_middleware a_request
       {| exc_type := "MissingFieldError";
          exc_bases := ["InvalidRequestError"; "GeneralError"; "Exception";
                        "BaseException"; "object"];
          exc_str := "Missing required fields in request";
          exc_traceback := [];
          exc_status_code := 500;
          exc_detail := PNone |}
       empty_world)
  = Some 400.
Proof. reflexivity. Qed.

Example keyboard_interrupt_is_not_handled :
  fst (exception_middleware a_request
         {| exc_type := "KeyboardInterrupt";
            exc_bases := ["BaseException"; "object"];
            exc_str := "";
            exc_traceback := [];
            exc_status_code := 500;
            exc_detail := PNone |}
         empty_world)
  = None.
Proof. reflexivity. Qed.


Example not_found_is_answered_by_the_framework :
  exception_middleware a_request a_not_found empty_world
  = (Some (mkJSONResponse 404 (PDict {[ "detail" := PStr "Not Found" ]})),
     empty_world).
Proof. reflexivity. Qed.

(** ** What a request writes *)

Lemma log_record_written (lvl : Z) (msg : string) (exc : option PyException)
    (w : World) :
  logging.DEBUG <= lvl ->
  let w' := snd (log logger lvl msg exc w) in
  stdout w' = stdout w
  /\ stderr w'
     = stderr w ++ when_ (logging.WARNING <=? lvl) (line_of lvl msg exc)
  /\ contents "log.txt" w'
     = contents "log.txt" w
       ++ when_ (logging.INFO <=? lvl) (line_of lvl msg exc)
  /\ contents "debug_log.txt" w'
     = contents "debug_log.txt" w ++ [line_of lvl msg exc]
  /\ (forall f, f <> "log.txt" -> f <> "debug_log.txt" ->
        files w' !! f = files w !! f).
Proof.
  intros Hlvl. unfold log, logger, contents, when_, line_of.
  cbn [logging.level logging.handlers logging.addHandler
       logging.Logger_setLevel logging.getLogger app].
  unfold logging.WARNING, logging.INFO, logging.DEBUG in *.
  assert (E10 : (10 <=? lvl) = true) by now apply Z.leb_le.
  rewrite E10.
  unfold callHandlers, handle, console_handler, file_handler,
    debug_file_handler.
  rewrite !io_seq.
  cbn [logging.handler_level logging.setFormatter logging.setLevel
       logging.new logging.target logging.formatter logging.levelno].
  unfold logging.WARNING, logging.INFO, logging.DEBUG. rewrite E10.
  destruct (30 <=? lvl) eqn:E30; destruct (20 <=? lvl) eqn:E20;
    cbn -[formatter]; rewrite ?app_nil_r;
    repeat split;
    repeat (rewrite lookup_insert_eq || rewrite lookup_insert_ne by discriminate);
    try reflexivity;
    intros f Hf1 Hf2;
    rewrite ?lookup_insert_ne by congruence; reflexivity.
Qed.

(** The two logging calls every handler starts with. *)
Lemma handler_logging (e : PyException) (w : World) :
  let w' := snd ((error logger (type_name e) ;;
                  info logger (traceback_of (type_name e)) (Some e)) w) in
  stdout w' = stdout w
  /\ stderr w' = stderr w ++ [error_line e]
  /\ contents "log.txt" w'
     = contents "log.txt" w ++ [error_line e; traceback_line e]
  /\ contents "debug_log.txt" w'
     = contents "debug_log.txt" w ++ [error_line e; traceback_line e]
  /\ (forall f, f <> "log.txt" -> f <> "debug_log.txt" ->
        files w' !! f = files w !! f).
Proof.
  cbv zeta. rewrite io_seq. unfold error, info.
  set (w1 := snd (log logger logging.ERROR (type_name e) None w)).
  destruct (log_record_written logging.ERROR (type_name e) None w)
    as (Ho1 & He1 & Hl1 & Hd1 & Hf1);
    [unfold logging.DEBUG, logging.ERROR; lia|].
  destruct (log_record_written logging.INFO (traceback_of (type_name e))
              (Some e) w1)
    as (Ho2 & He2 & Hl2 & Hd2 & Hf2);
    [unfold logging.DEBUG, logging.INFO; lia|].
  cbv zeta in *. fold w1 in Ho1, He1, Hl1, Hd1, Hf1.
  rewrite Ho2, He2, Hl2, Hd2, Ho1, He1, Hl1, Hd1.
  change (logging.WARNING <=? logging.ERROR) with true.
  change (logging.INFO <=? logging.ERROR) with true.
  change (logging.WARNING <=? logging.INFO) with false.
  change (logging.INFO <=? logging.INFO) with true.
  unfold when_. rewrite app_nil_r, <- !app_assoc.
  repeat split.
  intros f Hn1 Hn2. rewrite Hf2 by assumption. now apply Hf1.
Qed.

Lemma handler_world (h : ExceptionHandlerFn) (r : Request)
    (e : PyException) (w : World) :
  h = handle_400 \/ h = handle_409 \/ h = handle_422 \/ h = handle_503 \/
  h = handle_500 ->
  snd (h r e w)
  = snd ((error logger (type_name e) ;;
          info logger (traceback_of (type_name e)) (Some e)) w).
Proof.
  intros [->|[->|[->|[->| ->]]]];
    unfold handle_400, handle_409, handle_422, handle_503, handle_500;
    now rewrite !io_seq, io_ret.
Qed.

Lemma handle_exception_world r e w (h : ExceptionHandlerFn) :
  lookup_handler exception_handlers (mro e) = Some h ->
  snd (handle_exception r e w) = snd (h r e w).
Proof.
  intros Hh. unfold handle_exception. rewrite Hh.
  unfold mbind, IO_bind. now destruct (h r e w).
Qed.

(** X13. When the handlers of [app.py] answer an exception (any
    exception derived from Exception that is not an HTTPException), they
    write exactly two records, whichever handler it is: the name of the
    exception's class at ERROR, which goes to the console sink, to log.txt
    and to debug_log.txt, and the traceback record at INFO carrying the
    exception, which goes to the two files and not to the console. They
    print nothing on the standard output and touch no other file. *)
Theorem handled_exception_is_logged_twice :
  forall (r : Request) (e : PyException) (w : World),
    In "Exception" (mro e) ->
    ~ In "HTTPException" (mro e) ->
    stdout (snd (exception_middleware r e w)) = stdout w
    /\ stderr (snd (exception_middleware r e w)) = stderr w ++ [error_line e]
    /\ contents "log.txt" (snd (exception_middleware r e w))
       = contents "log.txt" w ++ [error_line e; traceback_line e]
    /\ contents "debug_log.txt" (snd (exception_middleware r e w))
       = contents "debug_log.txt" w ++ [error_line e; traceback_line e]
    /\ (forall f, f <> "log.txt" -> f <> "debug_log.txt" ->
          files (snd (exception_middleware r e w)) !! f = files w !! f).
Proof.
  intros r e w Hin Hhttp.
  rewrite exception_middleware_without_http by assumption.
  destruct (lookup_handler_is_Some _ Hin) as [h Hh].
  rewrite (handle_exception_world r e w h Hh).
  rewrite (handler_world h r e w (handler_found_cases _ h Hh)).
  apply handler_logging.
Qed.

Lemma handled_exception_is_logged_twice_witness :
  stderr (snd (exception_middleware a_request a_general_error empty_world))
  = [error_line a_general_error]
  /\ contents "log.txt"
       (snd (exception_middleware a_request a_general_error empty_world))
     = [error_line a_general_error; traceback_line a_general_error].
Proof.
  destruct (handled_exception_is_logged_twice a_request a_general_error
              empty_world) as (_ & Herr & Hlog & _).
  - simpl. tauto.
  - simpl. intuition discriminate.
  - split; [exact Herr | exact Hlog].
Defined.

Lemma only_appends_refl (w : World) : only_appends w w.
Proof. unfold only_appends. repeat split; reflexivity. Qed.

Lemma handle_exception_only_appends r e w :
  only_appends w (snd (handle_exception r e w)).
Proof.
  destruct (lookup_handler exception_handlers (mro e)) as [h|] eqn:Hh.
  - rewrite (handle_exception_world r e w h Hh).
    rewrite (handler_world h r e w (handler_found_cases _ h Hh)).
    destruct (handler_logging e w) as (Ho & He & Hl & Hd & Hf).
    cbv zeta in *. unfold only_appends.
    rewrite Ho, He, Hl, Hd.
    repeat split; try (now apply prefix_app_r); exact Hf.
  - unfold handle_exception. rewrite Hh. apply only_appends_refl.
Qed.

Lemma all_handler_found_cases (classes : list string)
    (h : ExceptionHandlerFn) :
  lookup_handler all_exception_handlers classes = Some h ->
  h = http_exception_handler \/
  h = handle_400 \/ h = handle_409 \/ h = handle_422 \/ h = handle_503 \/
  h = handle_500.
Proof.
  induction classes as [|cls rest IH]; [discriminate|].
  cbn [lookup_handler].
  destruct (decide (cls = "HTTPException")) as [->|Hne].
  - rewrite all_handlers_http. intros [= <-]. now left.
  - rewrite all_handlers_other by assumption.
    destruct (exception_handlers !! cls) as [h'|] eqn:E; [|exact IH].
    intros [= <-]. right.
    apply (handler_found_cases [cls]). cbn [lookup_handler]. now rewrite E.
Qed.

Lemma exception_middleware_only_appends r e w :
  only_appends w (snd (exception_middleware r e w)).
Proof.
  unfold exception_middleware.
  destruct (lookup_handler all_exception_handlers (mro e)) as [h|] eqn:Hh;
    [|apply only_appends_refl].
  destruct (all_handler_found_cases _ h Hh) as [->|Happ].
  - apply only_appends_refl.
  - assert (Hw : snd ((resp ← h r e; mret (Some resp)) w) = snd (h r e w)).
    { unfold mbind, IO_bind. now destruct (h r e w). }
    rewrite Hw, (handler_world h r e w Happ).
    destruct (handler_logging e w) as (Ho & He & Hl & Hd & Hf).
    cbv zeta in *. unfold only_appends.
    rewrite Ho, He, Hl, Hd.
    repeat split; try (now apply prefix_app_r); exact Hf.
Qed.

(** X14. In serving a request the gateway never prints on the standard
    output, never removes or changes a line already written to the
    console sink, to log.txt or to debug_log.txt (lines are only added at
    their end), and touches no other file; this holds for every route,
    every Controller and every outcome, and for the answer to every
    exception, the framework's included. A request whose value fits the
    response model and can be rendered as JSON (it holds no NaN and no
    infinity) writes nothing at all. *)
Theorem requests_only_append_to_logs :
  forall (S : Type)
         (response_validation_error : list ValidationError -> PyException)
         (rt : Route (S:=S)) (r : Request) (w : World) (s : S),
    only_appends w (fst (snd (serve response_validation_error rt r (w, s))))
    /\ (forall e : PyException,
          only_appends w (snd (exception_middleware r e w)))
    /\ (forall v body,
          fst (endpoint rt s) = inr v -> response_model rt v = inr body ->
          json_compliant body ->
          fst (snd (serve response_validation_error rt r (w, s))) = w).
Proof.
  intros S rve rt r w s.
  split; [|split; [intros e; apply exception_middleware_only_appends|]];
    unfold serve; destruct (endpoint rt s) as [[e|v] s']; cbn [fst].
  - pose proof (handle_exception_only_appends r e w) as Happ.
    now destruct (handle_exception r e w).
  - destruct (response_model rt v) as [errs|body] eqn:Hmodel.
    + pose proof (handle_exception_only_appends r (rve errs) w) as Happ.
      now destruct (handle_exception r (rve errs) w).
    + apply only_appends_refl.
  - discriminate.
  - intros v' body' [= <-] Hmodel _. now rewrite Hmodel.
Qed.

(** ** Valid and invalid values from the Controller *)

Lemma serve_returned {S : Type}
    (response_validation_error : list ValidationError -> PyException)
    (rt : Route (S:=S)) (r : Request) (w : World) (s s' : S) (v : pyval) :
  endpoint rt s = (inr v, s') ->
  serve response_validation_error rt r (w, s)
  = match response_model rt v with
    | inr body => (Some (mkJSONResponse (route_status_code rt) body), (w, s'))
    | inl errs =>
        let (resp, w') :=
          handle_exception r (response_validation_error errs) w in
        (resp, (w', s'))
    end.
Proof. intros Hcall. unfold serve. now rewrite Hcall. Qed.

Lemma serve_refused {S : Type}
    (response_validation_error : list ValidationError -> PyException)
    (rt : Route (S:=S)) (r : Request) (w : World) (s s' : S) (v : pyval)
    (errs : list ValidationError) :
  endpoint rt s = (inr v, s') ->
  response_model rt v = inl errs ->
  fst (serve response_validation_error rt r (w, s))
  = fst (handle_exception r (response_validation_error errs) w)
  /\ snd (snd (serve response_validation_error rt r (w, s))) = s'
  /\ forall resp,
       fst (serve response_validation_error rt r (w, s)) = Some resp ->
       In (status_code resp) [400; 409; 422; 503; 500].
Proof.
  intros Hcall Hmodel.
  rewrite (serve_returned _ rt r w s s' v Hcall), Hmodel.
  destruct (handle_exception r (response_validation_error errs) w)
    as [resp w'] eqn:Hh.
  cbn [fst snd]. repeat split.
  intros resp' ->.
  apply (handle_exception_response r (response_validation_error errs) w).
  now rewrite Hh.
Qed.


Lemma refused_of_dict {A : Type} (decode : pyval -> Decoded A)
    (validate : A -> list ValidationError) (dict : A -> pyval) (m : A) :
  decode (dict m) = inr m -> validate m <> [] ->
  response_field (parse decode validate) dict (dict m) = inl (validate m).
Proof.
  intros Hread Hbad. rewrite (response_field_of_dict _ _ _ m Hread).
  now destruct (validate m).
Qed.

Lemma under_not_nil (item : LocItem) (errs : list ValidationError) :
  errs <> [] -> under item errs <> [].
Proof. intros Hne Hnil. now apply under_nil in Hnil. Qed.

(** X16. A value from the Controller that is the plain-data form of an
    envelope whose payload is out of bounds (a telemetry reading, a
    vehicle status or a mission that construction rejects) is never sent
    with the success status: the request is answered by the exception
    handlers, for the exception raised with the payload's validation
    errors located under "result", and any response has one of the
    handlers' status codes. The Controller is still left in the state its
    call left it in. *)
Theorem invalid_value_is_refused :
  forall (S : Type) (gs : GroundStation S)
         (response_validation_error : list ValidationError -> PyException)
         (r : Request) (w : World) (s s' : S),
    (forall d : TelemetryOut.t,
       call gs "i_telemetry" [] s = (inr (TelemetryOut.dict d), s') ->
       TelemetryDict.validate (TelemetryOut.result d) <> [] ->
       fst (serve response_validation_error (interop_telemetry_route gs) r
              (w, s))
       = fst (handle_exception r
                (response_validation_error
                   (under (Key "result")
                      (TelemetryDict.validate (TelemetryOut.result d)))) w)
       /\ snd (snd (serve response_validation_error
                      (interop_telemetry_route gs) r (w, s))) = s'
       /\ forall resp,
            fst (serve response_validation_error
                   (interop_telemetry_route gs) r (w, s)) = Some resp ->
            status_code resp <> 200)
    /\ (forall d : QuickOut.t,
          call gs "m_quick" [] s = (inr (QuickOut.dict d), s') ->
          QuickDict.validate (QuickOut.result d) <> [] ->
          fst (serve response_validation_error (quick_route gs) r (w, s))
          = fst (handle_exception r
                   (response_validation_error
                      (under (Key "result")
                         (QuickDict.validate (QuickOut.result d)))) w)
          /\ snd (snd (serve response_validation_error (quick_route gs) r
                         (w, s))) = s'
          /\ forall resp,
               fst (serve response_validation_error (quick_route gs) r
                      (w, s)) = Some resp ->
               status_code resp <> 200)
    /\ (forall d : MissionOut.t,
          call gs "i_mission" [] s = (inr (MissionOut.dict d), s') ->
          MissionDict.validate (MissionOut.result d) <> [] ->
          fst (serve response_validation_error (interop_mission_route gs) r
                 (w, s))
          = fst (handle_exception r
                   (response_validation_error
                      (under (Key "result")
                         (MissionDict.validate (MissionOut.result d)))) w)
          /\ snd (snd (serve response_validation_error
                         (interop_mission_route gs) r (w, s))) = s'
          /\ forall resp,
               fst (serve response_validation_error
                      (interop_mission_route gs) r (w, s)) = Some resp ->
               status_code resp <> 200).
Proof.
  intros S gs rve r w s s'.
  assert (Hnot200 : forall x : Z, In x [400; 409; 422; 503; 500] -> x <> 200)
    by (simpl; intros x Hx; lia).
  split; [|split].
  - intros d Hcall Hbad.
    destruct (serve_refused rve (interop_telemetry_route gs) r w s s'
                (TelemetryOut.dict d)
                (under (Key "result")
                   (TelemetryDict.validate (TelemetryOut.result d))) Hcall)
      as (Hresp & Hstate & Hstatus).
    { cbn [response_model interop_telemetry_route].
      apply (refused_of_dict TelemetryOut.decode TelemetryOut.validate
               TelemetryOut.dict d (TelemetryOut_decode_dict d)).
      now apply under_not_nil. }
    split; [exact Hresp | split; [exact Hstate|]].
    intros resp Hr. now apply Hnot200, Hstatus.
  - intros d Hcall Hbad.
    destruct (serve_refused rve (quick_route gs) r w s s'
                (QuickOut.dict d)
                (under (Key "result")
                   (QuickDict.validate (QuickOut.result d))) Hcall)
      as (Hresp & Hstate & Hstatus).
    { cbn [response_model quick_route].
      apply (refused_of_dict QuickOut.decode QuickOut.validate
               QuickOut.dict d (QuickOut_decode_dict d)).
      now apply under_not_nil. }
    split; [exact Hresp | split; [exact Hstate|]].
    intros resp Hr. now apply Hnot200, Hstatus.
  - intros d Hcall Hbad.
    destruct (serve_refused rve (interop_mission_route gs) r w s s'
                (MissionOut.dict d)
                (under (Key "result")
                   (MissionDict.validate (MissionOut.result d))) Hcall)
      as (Hresp & Hstate & Hstatus).
    { cbn [response_model interop_mission_route].
      apply (refused_of_dict MissionOut.decode MissionOut.validate
               MissionOut.dict d (MissionOut_decode_dict d)).
      now apply under_not_nil. }
    split; [exact Hresp | split; [exact Hstate|]].
    intros resp Hr. now apply Hnot200, Hstatus.
Qed.

(** ** What a success response carries *)

Lemma response_field_inr {A : Type} (decode : pyval -> Decoded A)
    (validate : A -> list ValidationError) (dict : A -> pyval)
    (v body : pyval) :
  response_field (parse decode validate) dict v = inr body ->
  exists m, decode v = inr m /\ validate m = [] /\ body = dict m.
Proof.
  unfold response_field, parse, construct.
  destruct (decode v) as [errs|m]; [discriminate|].
  destruct (validate m) eqn:Hv; [|discriminate].
  intros [= <-]. now exists m.
Qed.

Lemma serve_success {S : Type}
    (response_validation_error : list ValidationError -> PyException)
    (rt : Route (S:=S)) (r : Request) (w : World) (s : S)
    (resp : JSONResponse) (p' : World * S) :
  serve response_validation_error rt r (w, s) = (Some resp, p') ->
  status_code resp = route_status_code rt ->
  ~ In (route_status_code rt) [400; 409; 422; 503; 500] ->
  exists v, fst (endpoint rt s) = inr v
            /\ response_model rt v = inr (content resp)
            /\ p' = (w, snd (endpoint rt s)).
Proof.
  unfold serve. intros Hserve Hstatus Hnot.
  destruct (endpoint rt s) as [[e|v] s'].
  - destruct (handle_exception r e w) as [resp' w'] eqn:Hh.
    injection Hserve as -> _. exfalso. apply Hnot. rewrite <- Hstatus.
    apply (handle_exception_response r e w). now rewrite Hh.
  - destruct (response_model rt v) as [errs|body] eqn:Hmodel.
    + destruct (handle_exception r (response_validation_error errs) w)
        as [resp' w'] eqn:Hh.
      injection Hserve as -> _. exfalso. apply Hnot. rewrite <- Hstatus.
      apply (handle_exception_response r (response_validation_error errs) w).
      now rewrite Hh.
    + injection Hserve as <- <-. now exists v.
Qed.

(** X17. A response with a route's success status fits the route's
    response model whenever the Controller returned a value other than
    [None]: the body of a 200 from GET /uav/quick is the envelope of a
    vehicle status that construction accepts (so every one of its fields
    is within bounds), likewise for the telemetry reading of GET
    /interop/telemetry and the mission of GET /interop/mission, and the
    body of a 201 from POST /interop/login is a mapping under "result".
    Such a request logs nothing. *)
Theorem success_body_fits_response_model :
  forall (S : Type) (gs : GroundStation S)
         (response_validation_error : list ValidationError -> PyException)
         (r : Request) (w : World) (s : S)
         (resp : JSONResponse) (p' : World * S),
    (serve response_validation_error (quick_route gs) r (w, s)
     = (Some resp, p') ->
     status_code resp = 200 ->
     (exists v, fst (call gs "m_quick" [] s) = inr v /\ v <> PNone) ->
     exists q : QuickDict.t,
       succeeds (QuickDict.init q)
       /\ content resp = QuickOut.dict (QuickOut.mk q) /\ fst p' = w)
    /\ (serve response_validation_error (interop_telemetry_route gs) r (w, s)
        = (Some resp, p') ->
        status_code resp = 200 ->
        (exists v, fst (call gs "i_telemetry" [] s) = inr v /\ v <> PNone) ->
        exists t : TelemetryDict.t,
          succeeds (construct TelemetryDict.validate t)
          /\ content resp = TelemetryOut.dict (TelemetryOut.mk t)
          /\ fst p' = w)
    /\ (serve response_validation_error (interop_mission_route gs) r (w, s)
        = (Some resp, p') ->
        status_code resp = 200 ->
        (exists v, fst (call gs "i_mission" [] s) = inr v /\ v <> PNone) ->
        exists m : MissionDict.t,
          succeeds (MissionDict.init m)
          /\ content resp = MissionOut.dict (MissionOut.mk m)
          /\ fst p' = w)
    /\ (serve response_validation_error (interop_login_route gs) r (w, s)
        = (Some resp, p') ->
        status_code resp = 201 ->
        (exists v, fst (call gs "i_login" [] s) = inr v /\ v <> PNone) ->
        exists payload : gmap string pyval,
          content resp = result_envelope (PDict payload) /\ fst p' = w).
Proof.
  intros S gs rve r w s resp p'.
  assert (H200 : ~ In 200 [400; 409; 422; 503; 500]) by (simpl; lia).
  assert (H201 : ~ In 201 [400; 409; 422; 503; 500]) by (simpl; lia).
  split; [|split; [|split]]; intros Hserve Hstatus _.
  - destruct (serve_success rve (quick_route gs) r w s resp p' Hserve Hstatus
                H200) as (v & _ & Hmodel & ->).
    cbn [response_model quick_route] in Hmodel.
    apply response_field_inr in Hmodel as ([q] & _ & Hvalid & Hbody).
    exists q. unfold QuickDict.init. rewrite construct_succeeds.
    apply nested_errors_nil in Hvalid. now repeat split.
  - destruct (serve_success rve (interop_telemetry_route gs) r w s resp p'
                Hserve Hstatus H200) as (v & _ & Hmodel & ->).
    cbn [response_model interop_telemetry_route] in Hmodel.
    apply response_field_inr in Hmodel as ([t] & _ & Hvalid & Hbody).
    exists t. rewrite construct_succeeds.
    apply nested_errors_nil in Hvalid. now repeat split.
  - destruct (serve_success rve (interop_mission_route gs) r w s resp p'
                Hserve Hstatus H200) as (v & _ & Hmodel & ->).
    cbn [response_model interop_mission_route] in Hmodel.
    apply response_field_inr in Hmodel as ([m] & _ & Hvalid & Hbody).
    exists m. unfold MissionDict.init. rewrite construct_succeeds.
    apply nested_errors_nil in Hvalid. now repeat split.
  - destruct (serve_success rve (interop_login_route gs) r w s resp p'
                Hserve Hstatus H201) as (v & _ & Hmodel & ->).
    cbn [response_model interop_login_route] in Hmodel.
    apply response_field_inr in Hmodel as ([payload] & _ & _ & Hbody).
    exists payload. split; [|reflexivity].
    rewrite Hbody. unfold GeneralOut.dict, result_envelope.
    cbn [GeneralOut.result]. now rewrite list_to_map_cons, list_to_map_nil,
      insert_empty.
Qed.

(** ** A returned value without "result" *)

Lemma envelope_without_result {A B : Type} (mk : A -> B)
    (type_ : pyval -> Decoded A) (validate : B -> list ValidationError)
    (dict : B -> pyval) (d : gmap string pyval) :
  d !! "result" = None ->
  response_field
    (parse (model (fun o => inr mk <*> required o "result" type_)) validate)
    dict (PDict d)
  = inl [([Key "result"], MissingError)].
Proof.
  intros Hnone. unfold response_field, parse, model, required.
  cbn [dict_validator]. now rewrite Hnone.
Qed.

(** X18. On every route, a mapping from the Controller that has no
    "result" entry is not sent: whatever else it holds, the request is
    answered by the exception handlers for the exception raised with the
    one validation error "result is missing", so a response, if any, has
    one of the handlers' status codes and not the route's success status;
    the Controller is left in the state its call left it in. *)
Theorem value_without_result_is_refused :
  forall (S : Type) (gs : GroundStation S)
         (response_validation_error : list ValidationError -> PyException)
         (r : Request) (w : World) (s s' : S) (d : gmap string pyval)
         (rt : Route (S:=S)),
    In rt (routes gs) ->
    d !! "result" = None ->
    endpoint rt s = (inr (PDict d), s') ->
    fst (serve response_validation_error rt r (w, s))
    = fst (handle_exception r
             (response_validation_error [([Key "result"], MissingError)]) w)
    /\ snd (snd (serve response_validation_error rt r (w, s))) = s'
    /\ forall resp,
         fst (serve response_validation_error rt r (w, s)) = Some resp ->
         status_code resp <> route_status_code rt.
Proof.
  intros S gs rve r w s s' d rt Hrt Hnone Hcall.
  assert (Hmodel : response_model rt (PDict d)
                   = inl [([Key "result"], MissingError)]).
  { simpl in Hrt. destruct Hrt as [<-|[<-|[<-|[<-|[]]]]];
      now apply envelope_without_result. }
  assert (Hcode : ~ In (route_status_code rt) [400; 409; 422; 503; 500]).
  { simpl in Hrt. destruct Hrt as [<-|[<-|[<-|[<-|[]]]]]; simpl; lia. }
  destruct (serve_refused rve rt r w s s' (PDict d) _ Hcall Hmodel)
    as (Hresp & Hstate & Hstatus).
  split; [exact Hresp | split; [exact Hstate|]].
  intros resp Hr Heq. apply Hcode. rewrite <- Heq. now apply Hstatus.
Qed.

Lemma value_without_result_is_refused_witness :
  status_code
    <$> fst (serve a_validation_error
               (interop_login_route (constant_controller (PDict ∅)))
               login_request (empty_world, tt))
  = Some 500.
Proof.
  destruct (value_without_result_is_refused unit
              (constant_controller (PDict ∅)) a_validation_error
              login_request empty_world tt tt ∅
              (interop_login_route (constant_controller (PDict ∅))))
    as (Hresp & _ & _).
  - simpl. tauto.
  - reflexivity.
  - reflexivity.
  - rewrite Hresp. reflexivity.
Defined.
